(** * TimeSeriesDisplay (act/plotting/plot.py): a shallow embedding

    The display object is a stateful wrapper around a plotting backend.
    Its methods are embedded as computations in a state-and-exception
    monad over the session object: a raised exception leaves the
    mutations made before it in place, exactly as in Python.

    Conventions of the embedding
    - a datetime64 value is its integer count since the epoch
      (nanoseconds for samples, days for the datetime64[D] store);
    - numeric samples and y-limits are integers: the code only compares
      them and takes minima and maxima;
    - a matplotlib Axes object is the record of what has been requested
      of it; the objects live inside [self.axes], and a method call on
      [self.axes[subplot_index]] rewrites that cell;
    - keyword options forwarded verbatim to the backend ([**kwargs]) are
      left at the backend's defaults. *)

From Stdlib Require Import ZArith String Lia.
From stdpp Require Import base list strings gmap pretty.

Local Open Scope string_scope.

(** ** Exceptions and the session monad *)

Inductive exn : Type :=
| RuntimeError (msg : string)
| ValueError (msg : string)
| IndexError
| KeyError (key : string)
| AttributeError (name : string)
| TypeError
| LibraryError (msg : string).

Inductive res (A : Type) : Type :=
| Ok (a : A)
| Raise (e : exn).
Arguments Ok {A} a.
Arguments Raise {A} e.

Definition M (S A : Type) : Type := S -> S * res A.

Definition ret {S A} (a : A) : M S A := fun s => (s, Ok a).
Definition raise {S A} (e : exn) : M S A := fun s => (s, Raise e).
Definition bind {S A B} (m : M S A) (k : A -> M S B) : M S B :=
  fun s => match m s with
           | (s1, Ok a) => k a s1
           | (s1, Raise e) => (s1, Raise e)
           end.
Definition lift {S A} (r : res A) : M S A := fun s => (s, r).
Definition gets {S A} (f : S -> A) : M S A := fun s => (s, Ok (f s)).
Definition modify {S} (f : S -> S) : M S unit := fun s => (f s, Ok tt).

Notation "x <- m ;; k" := (bind m (fun x => k))
  (at level 100, m at next level, right associativity).
Notation "m ;;; k" := (bind m (fun _ => k))
  (at level 100, right associativity).

(** An instance attribute that may not exist ([hasattr], [del]). *)
Inductive attr (A : Type) : Type :=
| Absent
| Attr (v : A).
Arguments Absent {A}.
Arguments Attr {A} v.

(** ** Python and numpy primitives *)

(** [seq[i]] on a sequence of length [n]: negative indices count from
    the end, anything outside [-n, n) raises IndexError. *)
Definition py_index (n : nat) (i : Z) : res nat :=
  if ((0 <=? i) && (i <? Z.of_nat n))%Z then Ok (Z.to_nat i)
  else if ((- Z.of_nat n <=? i) && (i <? 0))%Z then Ok (Z.to_nat (i + Z.of_nat n))
  else Raise IndexError.

Definition py_getitem {A} (l : list A) (i : Z) : res A :=
  match py_index (length l) i with
  | Ok k => match l !! k with Some a => Ok a | None => Raise IndexError end
  | Raise e => Raise e
  end.

(** [bool(a)] for a numpy boolean array given by its elements: only a
    one-element array has a truth value; an empty one is false. *)
Definition np_truth (a : list bool) : res bool :=
  match a with
  | [] => Ok false
  | [b] => Ok b
  | _ => Raise (ValueError "The truth value of an array with more than one element is ambiguous. Use a.any() or a.all()")
  end.

(** [a.min()], [a.max()]: a zero-size array raises ValueError. *)
Definition np_min (a : list Z) : res Z :=
  match a with
  | [] => Raise (ValueError "zero-size array to reduction operation minimum which has no identity")
  | x :: r => Ok (foldr Z.min x r)
  end.

Definition np_max (a : list Z) : res Z :=
  match a with
  | [] => Raise (ValueError "zero-size array to reduction operation maximum which has no identity")
  | x :: r => Ok (foldr Z.max x r)
  end.

(** datetime64[ns] to datetime64[D]: numpy floors towards the earlier day. *)
Definition ns_per_day : Z := 86400000000000.
Definition to_day (t : Z) : Z := (t / ns_per_day)%Z.

(** Python objects that are either None or a string. *)
Inductive pyobj : Type :=
| PyNone
| PyStr (s : string).

Definition py_str (o : pyobj) : pyobj :=
  match o with
  | PyNone => PyStr "None"
  | PyStr s => PyStr s
  end.

Definition is_None (o : pyobj) : bool :=
  match o with PyNone => true | PyStr _ => false end.

Definition str_of (o : pyobj) : string :=
  match o with PyNone => "None" | PyStr s => s end.

(** ** The dataset (read only) *)

Record Variable_ : Type := mkVariable {
  dims : list string;            (* dimension names *)
  attrs : gmap string string;    (* metadata, e.g. units *)
  values : list Z                (* the samples, flattened *)
}.

Record Dataset : Type := mkDataset {
  variables : gmap string Variable_;
  act_datastream : pyobj;        (* arm_obj.act.datastream *)
  alt_datastream : pyobj;        (* arm_obj._arm.act._obj.act.datastream *)
  act_file_dates : list Z        (* arm_obj.act.file_dates, as day numbers *)
}.

(** [arm_obj[name]] *)
Definition ds_getitem (d : Dataset) (name : string) : res Variable_ :=
  match variables d !! name with
  | Some v => Ok v
  | None => Raise (KeyError name)
  end.

(** [arm_obj.name] *)
Definition ds_getattr (d : Dataset) (name : string) : res Variable_ :=
  match variables d !! name with
  | Some v => Ok v
  | None => Raise (AttributeError name)
  end.

(** [v.attrs[key]] *)
Definition attrs_getitem (v : Variable_) (key : string) : res string :=
  match attrs v !! key with
  | Some u => Ok u
  | None => Raise (KeyError key)
  end.

(** ** The plotting backend *)

(** What has been drawn: the marker series of [ax.plot] and the mesh
    of [ax.pcolormesh]; the samples are kept flattened, so the
    transposition of the mesh data leaves no trace. *)
Inductive Artist : Type :=
| Line2D (x y : list Z) (fmt color : string)
| QuadMesh (x y c : list Z) (cmap : option string) (vmin vmax : option Z).

Record Axes : Type := mkAxes {
  patch_facecolor : option string;
  spans : list (Z * Z * string);         (* axvspan(xmin, xmax, facecolor) *)
  vlines : list (Z * string * string);   (* axvline(x, linestyle, color) *)
  artists : list Artist;
  title : option string;
  ylabel : option string;
  xlim : option (Z * Z);
  ylim : option (Z * Z);
  major_formatter : option string
}.

Definition new_axes : Axes :=
  mkAxes None [] [] [] None None None None None.

Record Colorbar : Type := mkColorbar {
  cb_mappable : Artist;
  cb_label : option string;
  cb_host : list Z
}.

(** A figure records the auxiliary axes added to it next to a subplot. *)
Record Figure : Type := mkFigure {
  added_axes : list (list Z)
}.

Definition new_figure : Figure := mkFigure [].

(** The value of [self.axes]: a bare Axes object (what [plt.subplots]
    returns for a 1x1 grid), or a numpy object array of shape (n,) or
    (rows, cols). *)
Inductive AxesVal : Type :=
| AxObj (a : Axes)
| AxArr1 (l : list Axes)
| AxArr2 (ncols : nat) (rows : list (list Axes)).

(** [plt.subplots(nrows, ncols)] with the default squeeze=True: a new
    figure and a bare Axes object for a 1x1 grid, a 1-D array for a
    single row or column, a 2-D array otherwise; ValueError when a
    count is not positive. *)
Definition plt_subplots (nrows ncols : Z) : res (Figure * AxesVal) :=
  if (nrows <? 1)%Z || (ncols <? 1)%Z then
    Raise (ValueError "Number of rows and columns must be positive integers")
  else if (nrows =? 1)%Z && (ncols =? 1)%Z then
    Ok (new_figure, AxObj new_axes)
  else if (ncols =? 1)%Z then
    Ok (new_figure, AxArr1 (replicate (Z.to_nat nrows) new_axes))
  else if (nrows =? 1)%Z then
    Ok (new_figure, AxArr1 (replicate (Z.to_nat ncols) new_axes))
  else
    Ok (new_figure,
        AxArr2 (Z.to_nat ncols)
               (replicate (Z.to_nat nrows) (replicate (Z.to_nat ncols) new_axes))).

(** [np.array([ax])]: a bare Axes object becomes a one-element array.
    (The code only wraps what [plt.subplots(1, 1)] returned, which is a
    bare object; for an array the wrapping would add a leading axis.) *)
Definition np_array_of (av : AxesVal) : AxesVal :=
  match av with
  | AxObj a => AxArr1 [a]
  | AxArr1 l => AxArr2 (length l) [l]
  | AxArr2 c rows => AxArr2 c rows
  end.

(** [self.axes.shape]; a bare Axes object has no such attribute. *)
Definition axes_shape (av : AxesVal) : res (list nat) :=
  match av with
  | AxObj _ => Raise (AttributeError "shape")
  | AxArr1 l => Ok [length l]
  | AxArr2 c rows => Ok [length rows; c]
  end.

(** What [self.axes[subplot_index]] evaluates to for a tuple index. *)
Inductive Item : Type :=
| ItAxes (a : Axes)
| ItArray.

Definition axes_getitem (av : AxesVal) (idx : list Z) : res Item :=
  match av with
  | AxObj _ => Raise TypeError
  | AxArr1 l =>
      match idx with
      | [] => Ok ItArray
      | [i] => match py_getitem l i with
               | Ok a => Ok (ItAxes a)
               | Raise e => Raise e
               end
      | _ => Raise IndexError
      end
  | AxArr2 c rows =>
      match idx with
      | [] => Ok ItArray
      | [i] => match py_index (length rows) i with
               | Ok _ => Ok ItArray
               | Raise e => Raise e
               end
      | [i; j] =>
          match py_index (length rows) i, py_index c j with
          | Ok k, Ok m =>
              match rows !! k ≫= (.!! m) with
              | Some a => Ok (ItAxes a)
              | None => Raise IndexError
              end
          | Raise e, _ => Raise e
          | _, Raise e => Raise e
          end
      | _ => Raise IndexError
      end
  end.

(** A mutating method call [self.axes[subplot_index].meth(...)]: the
    object sits in the array, so the cell is rewritten. A sub-array has
    no such method. *)
Definition axes_call (meth : string) (f : Axes -> Axes)
    (av : AxesVal) (idx : list Z) : res AxesVal :=
  match av with
  | AxObj _ => Raise TypeError
  | AxArr1 l =>
      match idx with
      | [] => Raise (AttributeError meth)
      | [i] => match py_index (length l) i with
               | Ok k => Ok (AxArr1 (alter f k l))
               | Raise e => Raise e
               end
      | _ => Raise IndexError
      end
  | AxArr2 c rows =>
      match idx with
      | [] => Raise (AttributeError meth)
      | [i] => match py_index (length rows) i with
               | Ok _ => Raise (AttributeError meth)
               | Raise e => Raise e
               end
      | [i; j] =>
          match py_index (length rows) i, py_index c j with
          | Ok k, Ok m =>
              match rows !! k ≫= (.!! m) with
              | Some _ => Ok (AxArr2 c (alter (alter f m) k rows))
              | None => Raise IndexError
              end
          | Raise e, _ => Raise e
          | _, Raise e => Raise e
          end
      | _ => Raise IndexError
      end
  end.

(** ** The range stores

    [self.xrng] and [self.yrng] are arrays of shape (n, 2) or
    (rows, cols, 2); the last axis is the (low, high) pair. *)
Inductive Store : Type :=
| St1 (rows : list (Z * Z))
| St2 (rows : list (list (Z * Z))).

(** [np.zeros((n, 2))] and [np.zeros((r, c, 2))] *)
Definition np_zeros1 (n : nat) : Store := St1 (replicate n (0%Z, 0%Z)).
Definition np_zeros2 (r c : nat) : Store :=
  St2 (replicate r (replicate c (0%Z, 0%Z))).

Definition store_nrows (st : Store) : nat :=
  match st with
  | St1 rows => length rows
  | St2 rows => length rows
  end.

Fixpoint res_mapM {A B} (f : A -> res B) (l : list A) : res (list B) :=
  match l with
  | [] => Ok []
  | a :: r =>
      match f a with
      | Ok b => match res_mapM f r with
                | Ok bs => Ok (b :: bs)
                | Raise e => Raise e
                end
      | Raise e => Raise e
      end
  end.

Definition store_fill_row (v : Z * Z) (k : nat) (st : Store) : Store :=
  match st with
  | St1 rows => St1 (<[k := v]> rows)
  | St2 rows => St2 (alter (fmap (fun _ => v)) k rows)
  end.

(** [store[subplot_index, :] = v]: the tuple [subplot_index] in first
    position is an index array over axis 0, so every row it names is
    overwritten with [v] (all of its cells, for a 3-D store). The
    indices are bounds-checked before anything is written. *)
Definition store_assign (st : Store) (idx : list Z) (v : Z * Z) : res Store :=
  match idx with
  | [] => Raise IndexError
  | _ =>
      match res_mapM (py_index (store_nrows st)) idx with
      | Ok ks => Ok (foldr (store_fill_row v) st ks)
      | Raise e => Raise e
      end
  end.

(** A numpy value read out of a store: a scalar, or an array given by
    its elements in order. *)
Inductive NdVal : Type :=
| Scalar (x : Z)
| Vec (l : list Z).

Definition pair_elems (p : Z * Z) : list Z := [p.1; p.2].

Definition pair_get (p : Z * Z) (j : Z) : res Z :=
  match py_index 2 j with
  | Ok 0 => Ok p.1
  | Ok _ => Ok p.2
  | Raise e => Raise e
  end.

(** [store[subplot_index]] for a tuple index (one integer per axis). *)
Definition store_getitem (st : Store) (idx : list Z) : res NdVal :=
  match st with
  | St1 rows =>
      match idx with
      | [] => Ok (Vec (rows ≫= pair_elems))
      | [i] => match py_getitem rows i with
               | Ok p => Ok (Vec (pair_elems p))
               | Raise e => Raise e
               end
      | [i; j] => match py_getitem rows i with
                  | Ok p => match pair_get p j with
                            | Ok x => Ok (Scalar x)
                            | Raise e => Raise e
                            end
                  | Raise e => Raise e
                  end
      | _ => Raise IndexError
      end
  | St2 rows =>
      match idx with
      | [] => Ok (Vec (rows ≫= (fun r => r ≫= pair_elems)))
      | [i] => match py_getitem rows i with
               | Ok r => Ok (Vec (r ≫= pair_elems))
               | Raise e => Raise e
               end
      | [i; j] => match py_getitem rows i with
                  | Ok r => match py_getitem r j with
                            | Ok p => Ok (Vec (pair_elems p))
                            | Raise e => Raise e
                            end
                  | Raise e => Raise e
                  end
      | [i; j; k] => match py_getitem rows i with
                     | Ok r => match py_getitem r j with
                               | Ok p => match pair_get p k with
                                         | Ok x => Ok (Scalar x)
                                         | Raise e => Raise e
                                         end
                               | Raise e => Raise e
                               end
                     | Raise e => Raise e
                     end
      | _ => Raise IndexError
      end
  end.

(** [v == np.zeros(2)], elementwise with broadcasting. *)
Definition eq_zeros2 (v : NdVal) : list bool :=
  match v with
  | Scalar x => [(x =? 0)%Z; (x =? 0)%Z]
  | Vec l => (fun x => (x =? 0)%Z) <$> l
  end.

(** The elapsed days read back by [plot] (lines 347-351):
    [xrng[subplot_index, 1] - xrng[subplot_index, 0]] for a 1-tuple,
    [xrng[i, j, 1] - xrng[i, j, 0]] otherwise, in days. *)
Definition xrng_days (st : Store) (idx : list Z) : res (list Z) :=
  match idx with
  | [i] =>
      match st with
      | St1 rows => match py_getitem rows i with
                    | Ok p => Ok [(p.2 - p.1)%Z]
                    | Raise e => Raise e
                    end
      | St2 rows => match py_getitem rows i with
                    | Ok r => match py_getitem r 1, py_getitem r 0 with
                              | Ok p1, Ok p0 => Ok [(p1.1 - p0.1)%Z; (p1.2 - p0.2)%Z]
                              | Raise e, _ => Raise e
                              | _, Raise e => Raise e
                              end
                    | Raise e => Raise e
                    end
      end
  | i :: j :: _ =>
      match st with
      | St1 _ => Raise IndexError
      | St2 rows => match py_getitem rows i with
                    | Ok r => match py_getitem r j with
                              | Ok p => Ok [(p.2 - p.1)%Z]
                              | Raise e => Raise e
                              end
                    | Raise e => Raise e
                    end
      end
  | [] => Raise IndexError
  end.

(** ** The session object *)

Record Session : Type := mkSession {
  arm : Dataset;                       (* self._arm *)
  fields : gmap string Variable_;
  ds : pyobj;
  file_dates : list Z;
  fig : attr (option Figure);
  axes : option AxesVal;
  plot_vars : list string;
  cbs : list Colorbar;
  xrng : attr Store;
  yrng : attr Store;
  time_rng : attr (Z * Z)
}.

Definition set_fig (v : attr (option Figure)) (s : Session) : Session :=
  mkSession (arm s) (fields s) (ds s) (file_dates s) v (axes s)
            (plot_vars s) (cbs s) (xrng s) (yrng s) (time_rng s).
Definition set_axes (v : option AxesVal) (s : Session) : Session :=
  mkSession (arm s) (fields s) (ds s) (file_dates s) (fig s) v
            (plot_vars s) (cbs s) (xrng s) (yrng s) (time_rng s).
Definition set_cbs (v : list Colorbar) (s : Session) : Session :=
  mkSession (arm s) (fields s) (ds s) (file_dates s) (fig s) (axes s)
            (plot_vars s) v (xrng s) (yrng s) (time_rng s).
Definition set_xrng_attr (v : attr Store) (s : Session) : Session :=
  mkSession (arm s) (fields s) (ds s) (file_dates s) (fig s) (axes s)
            (plot_vars s) (cbs s) v (yrng s) (time_rng s).
Definition set_yrng_attr (v : attr Store) (s : Session) : Session :=
  mkSession (arm s) (fields s) (ds s) (file_dates s) (fig s) (axes s)
            (plot_vars s) (cbs s) (xrng s) v (time_rng s).
Definition set_time_rng (v : attr (Z * Z)) (s : Session) : Session :=
  mkSession (arm s) (fields s) (ds s) (file_dates s) (fig s) (axes s)
            (plot_vars s) (cbs s) (xrng s) (yrng s) v.

(** Reading an instance attribute that may have been deleted. *)
Definition getattr {A} (name : string) (f : Session -> attr A) : M Session A :=
  fun s => match f s with
           | Attr v => (s, Ok v)
           | Absent => (s, Raise (AttributeError name))
           end.

(** [if self.axes is None: raise RuntimeError(msg)] *)
Definition require_axes (msg : string) : M Session AxesVal :=
  fun s => match axes s with
           | None => (s, Raise (RuntimeError msg))
           | Some av => (s, Ok av)
           end.

(** [ax = self.axes[subplot_index]] *)
Definition self_axes_getitem (idx : list Z) : M Session Item :=
  fun s => match axes s with
           | None => (s, Raise TypeError)
           | Some av => (s, axes_getitem av idx)
           end.

(** [self.axes[subplot_index].meth(...)] *)
Definition ax_method (meth : string) (f : Axes -> Axes) (idx : list Z)
    : M Session unit :=
  fun s => match axes s with
           | None => (s, Raise TypeError)
           | Some av =>
               match axes_call meth f av idx with
               | Ok av' => (set_axes (Some av') s, Ok tt)
               | Raise e => (s, Raise e)
               end
           end.

(** Axes methods used by the display. *)
Definition set_facecolor (c : string) (a : Axes) : Axes :=
  mkAxes (Some c) (spans a) (vlines a) (artists a) (title a) (ylabel a)
         (xlim a) (ylim a) (major_formatter a).
Definition axvspan (x0 x1 : Z) (c : string) (a : Axes) : Axes :=
  mkAxes (patch_facecolor a) (spans a ++ [(x0, x1, c)]) (vlines a) (artists a)
         (title a) (ylabel a) (xlim a) (ylim a) (major_formatter a).
Definition axvline (x : Z) (ls c : string) (a : Axes) : Axes :=
  mkAxes (patch_facecolor a) (spans a) (vlines a ++ [(x, ls, c)]) (artists a)
         (title a) (ylabel a) (xlim a) (ylim a) (major_formatter a).
Definition add_artist (r : Artist) (a : Axes) : Axes :=
  mkAxes (patch_facecolor a) (spans a) (vlines a) (artists a ++ [r])
         (title a) (ylabel a) (xlim a) (ylim a) (major_formatter a).
Definition ax_set_title (t : string) (a : Axes) : Axes :=
  mkAxes (patch_facecolor a) (spans a) (vlines a) (artists a)
         (Some t) (ylabel a) (xlim a) (ylim a) (major_formatter a).
Definition ax_set_ylabel (t : string) (a : Axes) : Axes :=
  mkAxes (patch_facecolor a) (spans a) (vlines a) (artists a)
         (title a) (Some t) (xlim a) (ylim a) (major_formatter a).
Definition ax_set_xlim (r : Z * Z) (a : Axes) : Axes :=
  mkAxes (patch_facecolor a) (spans a) (vlines a) (artists a)
         (title a) (ylabel a) (Some r) (ylim a) (major_formatter a).
Definition ax_set_ylim (r : Z * Z) (a : Axes) : Axes :=
  mkAxes (patch_facecolor a) (spans a) (vlines a) (artists a)
         (title a) (ylabel a) (xlim a) (Some r) (major_formatter a).
Definition ax_set_major_formatter (f : string) (a : Axes) : Axes :=
  mkAxes (patch_facecolor a) (spans a) (vlines a) (artists a)
         (title a) (ylabel a) (xlim a) (ylim a) (Some f).

(** ** Collaborators outside this module *)

Record Sun : Type := mkSun { sunrise : Z; sunset : Z; noon : Z }.

(** The ephemeris library and the helper modules [common] and
    [data_utils] are black boxes; each may raise. *)
Record Collaborators : Type := mkCollaborators {
  sun_utc : Z -> Z -> Z -> res Sun;           (* astral: date, lat, lon *)
  get_date_format : list Z -> res string;     (* common.get_date_format(days) *)
  add_in_nan : list Z -> list Z -> res (list Z * list Z);
  arm_date_label : Z -> string                (* the text of an ARM date *)
}.

(** Modelled from the spec: [dt_utils.numpy_to_arm_date] is not among
    the sources; the spec has it convert a time sample to a
    calendar-date label. The label is represented by its day number. *)
Definition numpy_to_arm_date (t : Z) : Z := to_day t.

(** Modelled from the spec: [dt_utils.dates_between] is not among the
    sources; the spec has it enumerate every calendar day of the
    inclusive span from the first date to the last. *)
Definition dates_between (sdate edate : Z) : list Z :=
  seqZ sdate (edate - sdate + 1).

(** Keyword arguments of [plot]. *)
Record PlotOpts : Type := mkPlotOpts {
  line_color : string;
  cmap : option string;
  cbmin : option Z;
  cbmax : option Z;
  set_title : option string;
  add_nan : bool
}.

Definition default_opts : PlotOpts :=
  mkPlotOpts "k" None None None None false.

(** ** The methods of TimeSeriesDisplay *)

(** The messages of the not-yet-displayed error. *)
Definition msg_xrng : string := "set_xrng requires the plot to be displayed.".
Definition msg_yrng : string := "set_yrng requires the plot to be displayed.".
Definition msg_cbar : string := "add_colorbar requires the plot to be displayed.".
Definition msg_dnb : string :=
  "day_night_background requires the plot to be displayed.".

Definition invalid_shape_msg : string :=
  "subplot_shape must be a 1 or 2 dimensional tuplelist, or array!".

Definition add_subplots (subplot_shape : list Z) : M Session unit :=
  f <- getattr "fig" fig ;;
  (* if self.fig is not None: del self.fig *)
  (match f with
   | Some _ => modify (set_fig Absent)
   | None => ret tt
   end) ;;;
  fa <- match subplot_shape with
        | [r; c] => lift (plt_subplots r c)
        | [n] =>
            fa <- lift (plt_subplots n 1) ;;
            if (n =? 1)%Z then ret (fa.1, np_array_of fa.2) else ret fa
        | _ => raise (ValueError invalid_shape_msg)
        end ;;
  modify (set_fig (Attr (Some fa.1))) ;;;
  modify (set_axes (Some fa.2)).

(** [TimeSeriesDisplay(arm_obj, subplot_shape)] *)
Definition init (arm_obj : Dataset) (subplot_shape : option (list Z))
    : res Session :=
  let ds0 := py_str (act_datastream arm_obj) in
  let ds1 := if is_None ds0 then py_str (alt_datastream arm_obj) else ds0 in
  let s := mkSession arm_obj (variables arm_obj) ds1 (act_file_dates arm_obj)
                     (Attr None) None [] [] Absent Absent Absent in
  match subplot_shape with
  | None => Ok s
  | Some shape =>
      match add_subplots shape s with
      | (s', Ok _) => Ok s'
      | (_, Raise e) => Raise e
      end
  end.

Section Methods.
Context (E : Collaborators).

(** [lat] and [lon] as read by day_night_background. *)
Definition site_location (d : Dataset) : res (Z * Z) :=
  match ds_getattr d "lat" with
  | Raise e => Raise e
  | Ok lat =>
      if (1 <? length (values lat))%nat then
        match py_getitem (values lat) 0, ds_getattr d "lon" with
        | Ok la, Ok lon =>
            match py_getitem (values lon) 0 with
            | Ok lo => Ok (la, lo)
            | Raise e => Raise e
            end
        | Raise e, _ => Raise e
        | _, Raise e => Raise e
        end
      else
        match values lat with
        | [la] =>
            match ds_getattr d "lon" with
            | Ok lon => match values lon with
                        | [lo] => Ok (la, lo)
                        | _ => Raise TypeError
                        end
            | Raise e => Raise e
            end
        | _ => Raise TypeError
        end
  end.

(** The loop [for f in all_dates] of day_night_background. *)
Fixpoint shade_days (all_dates : list Z) (lat lon : Z) (idx : list Z)
    : M Session unit :=
  match all_dates with
  | [] => ret tt
  | f :: rest =>
      sun <- lift (sun_utc E f lat lon) ;;
      ax_method "axvspan" (axvspan (sunrise sun) (sunset sun) "#FFFFCC") idx ;;;
      ax_method "axvline" (axvline (noon sun) "--" "y") idx ;;;
      shade_days rest lat lon idx
  end.

(** The first and last date of the span to shade (lines 142-148):
    the recorded file dates, else the days of the first and last time
    samples. *)
Definition shading_span (d : Dataset) : res (Z * Z) :=
  let file_dates := act_file_dates d in
  match (if (length file_dates =? 0)%nat then
           match ds_getattr d "time" with
           | Ok tv =>
               match py_getitem (values tv) 0, py_getitem (values tv) (-1) with
               | Ok t0, Ok t1 => Ok [numpy_to_arm_date t0; numpy_to_arm_date t1]
               | Raise e, _ => Raise e
               | _, Raise e => Raise e
               end
           | Raise e => Raise e
           end
         else Ok file_dates) with
  | Raise e => Raise e
  | Ok fd =>
      match py_getitem fd 0, py_getitem fd (-1) with
      | Ok d0, Ok d1 => Ok (d0, d1)
      | Raise e, _ => Raise e
      | _, Raise e => Raise e
      end
  end.

Definition day_night_background (subplot_index : list Z) : M Session unit :=
  d <- gets arm ;;
  span <- lift (shading_span d) ;;
  let all_dates := dates_between span.1 span.2 in
  require_axes "day_night_background requires the plot to be displayed." ;;;
  self_axes_getitem subplot_index ;;;
  ax_method "patch" (set_facecolor "0.85") subplot_index ;;;
  loc <- lift (site_location d) ;;
  shade_days all_dates loc.1 loc.2 subplot_index.

Definition set_xrng (rng : Z * Z) (subplot_index : list Z) : M Session unit :=
  av <- require_axes "set_xrng requires the plot to be displayed." ;;
  x <- gets xrng ;;
  (match x with
   | Attr _ => ret tt
   | Absent =>
       shape <- lift (axes_shape av) ;;
       match shape with
       | [r; c] => modify (set_xrng_attr (Attr (np_zeros2 r c)))
       | [n] => modify (set_xrng_attr (Attr (np_zeros1 n)))
       | _ => ret tt
       end
   end) ;;;
  ax_method "set_xlim" (ax_set_xlim rng) subplot_index ;;;
  st <- getattr "xrng" xrng ;;
  st' <- lift (store_assign st subplot_index (to_day rng.1, to_day rng.2)) ;;
  modify (set_xrng_attr (Attr st')).

Definition set_yrng (rng : Z * Z) (subplot_index : list Z) : M Session unit :=
  av <- require_axes "set_yrng requires the plot to be displayed." ;;
  y <- gets yrng ;;
  (match y with
   | Attr _ => ret tt
   | Absent =>
       shape <- lift (axes_shape av) ;;
       match shape with
       | [r; c] => modify (set_yrng_attr (Attr (np_zeros2 r c)))
       | [n] => modify (set_yrng_attr (Attr (np_zeros1 n)))
       | _ => ret tt
       end
   end) ;;;
  ax_method "set_ylim" (ax_set_ylim rng) subplot_index ;;;
  st <- getattr "yrng" yrng ;;
  st' <- lift (store_assign st subplot_index rng) ;;
  modify (set_yrng_attr (Attr st')).

(** [fig.add_axes([box.xmax + pad, box.ymin, width, box.height])] *)
Definition fig_add_axes (host : list Z) : M Session unit :=
  f <- getattr "fig" fig ;;
  match f with
  | None => raise (AttributeError "add_axes")
  | Some g => modify (set_fig (Attr (Some (mkFigure (added_axes g ++ [host])))))
  end.

Definition add_colorbar (mappable : Artist) (title : option string)
    (subplot_index : list Z) : M Session Colorbar :=
  require_axes "add_colorbar requires the plot to be displayed." ;;;
  getattr "fig" fig ;;;
  ax <- self_axes_getitem subplot_index ;;
  match ax with
  | ItArray => raise (AttributeError "get_position")
  | ItAxes _ =>
      fig_add_axes subplot_index ;;;
      let cbar := mkColorbar mappable title subplot_index in
      c <- gets cbs ;;
      modify (set_cbs (c ++ [cbar])) ;;;
      ret cbar
  end.

(** Lines 289-298 of [plot]: the field, its x coordinate, its optional
    y coordinate, the colorbar title and the y-axis title. *)
Definition plot_inputs (d : Dataset) (field : string)
    : res (Variable_ * Variable_ * option Variable_ * string * string) :=
  match ds_getitem d field with
  | Raise e => Raise e
  | Ok data =>
      let dim := dims data in
      match py_getitem dim 0 with
      | Raise e => Raise e
      | Ok d0 =>
          match ds_getitem d d0, attrs_getitem data "units" with
          | Raise e, _ => Raise e
          | _, Raise e => Raise e
          | Ok xdata, Ok u =>
              let ytitle := "(" ++ u ++ ")" in
              if (1 <? length dim)%nat then
                match py_getitem dim 1 with
                | Raise e => Raise e
                | Ok d1 =>
                    match ds_getitem d d1 with
                    | Raise e => Raise e
                    | Ok ydata =>
                        match attrs_getitem ydata "units" with
                        | Raise e => Raise e
                        | Ok yu => Ok (data, xdata, Some ydata, ytitle, "(" ++ yu ++ ")")
                        end
                    end
                end
              else Ok (data, xdata, None, "", ytitle)
          end
      end
  end.

(** Lines 338-344 of [plot]. [set_yrng] unpacks its argument into two
    limits, so re-applying a stored value that is not a pair fails in
    [set_ylim]. *)
Definition plot_yrange (ydata : option Variable_) (subplot_index : list Z)
    : M Session unit :=
  y <- gets yrng ;;
  match y with
  | Absent => ret tt
  | Attr st =>
      v <- lift (store_getitem st subplot_index) ;;
      b <- lift (np_truth (eq_zeros2 v)) ;;
      if negb b then
        match v with
        | Vec [lo; hi] => set_yrng (lo, hi) subplot_index
        | _ => raise (ValueError "not enough values to unpack")
        end
      else
        match ydata with
        | None => raise (AttributeError "min")
        | Some yv =>
            lo <- lift (np_min (values yv)) ;;
            hi <- lift (np_max (values yv)) ;;
            set_yrng (lo, hi) subplot_index
        end
  end.

(** Lines 301-306 of [plot]: a figure and a single axis are created
    when the session has none. *)
Definition ensure_figure : M Session unit :=
  fun s => match fig s with
           | Absent => (s, Raise (AttributeError "fig"))
           | Attr None => (set_fig (Attr (Some new_figure)) s, Ok tt)
           | Attr (Some _) => (s, Ok tt)
           end.

Definition ensure_axes : M Session unit :=
  fun s => match axes s with
           | None => (set_axes (Some (AxArr1 [new_axes])) s, Ok tt)
           | Some _ => (s, Ok tt)
           end.

(** What the drawing part of [plot] hands to the rest: the x samples
    as drawn, the mesh of a 2-D plot, the colorbar title, the y
    coordinate. *)
Record Drawn : Type := mkDrawn {
  drawn_x : list Z;
  drawn_mesh : option Artist;
  drawn_units : string;
  drawn_ydata : option Variable_
}.

(** Lines 289-329 of [plot]. *)
Definition plot_draw (field : string) (subplot_index : list Z) (o : PlotOpts)
    : M Session Drawn :=
  (* Get data and dimensions *)
  d <- gets arm ;;
  inp <- lift (plot_inputs d field) ;;
  let '(data, xdata, ydata, units, ytitle) := inp in
  (* Get the current plotting axis, add day/night background and plot data *)
  ensure_figure ;;;
  ensure_axes ;;;
  self_axes_getitem subplot_index ;;;
  drawn <- match ydata with
           | None =>
               day_night_background subplot_index ;;;
               ax_method "plot"
                 (add_artist (Line2D (values xdata) (values data) "." (line_color o)))
                 subplot_index ;;;
               ret (mkDrawn (values xdata) None units ydata)
           | Some yv =>
               xd <- (if add_nan o
                      then lift (add_in_nan E (values xdata) (values data))
                      else ret (values xdata, values data)) ;;
               let mesh := QuadMesh xd.1 (values yv) xd.2 (cmap o) (cbmin o) (cbmax o) in
               ax_method "pcolormesh" (add_artist mesh) subplot_index ;;;
               ret (mkDrawn xd.1 (Some mesh) units ydata)
           end ;;
  (* Set Title *)
  t <- match set_title o with
       | Some t => ret t
       | None =>
           tv <- lift (ds_getattr d "time") ;;
           t0 <- lift (py_getitem (values tv) 0) ;;
           n <- gets ds ;;
           ret (str_of n ++ " " ++ field ++ " on " ++
                arm_date_label E (numpy_to_arm_date t0))
       end ;;
  ax_method "set_title" (ax_set_title t) subplot_index ;;;
  (* Set YTitle *)
  ax_method "set_ylabel" (ax_set_ylabel ytitle) subplot_index ;;;
  ret drawn.

(** Lines 331-335 of [plot]: the time range is computed when the
    session has none, then applied. *)
Definition plot_xlimit (xdata : list Z) (subplot_index : list Z)
    : M Session unit :=
  tr <- gets time_rng ;;
  (match tr with
   | Attr _ => ret tt
   | Absent =>
       lo <- lift (np_min xdata) ;;
       hi <- lift (np_max xdata) ;;
       modify (set_time_rng (Attr (lo, hi)))
   end) ;;;
  tr <- getattr "time_rng" time_rng ;;
  set_xrng tr subplot_index.

(** Lines 346-354 of [plot]. *)
Definition plot_xformat (subplot_index : list Z) : M Session unit :=
  st <- getattr "xrng" xrng ;;
  days <- lift (xrng_days st subplot_index) ;;
  myFmt <- lift (get_date_format E days) ;;
  ax_method "set_major_formatter" (ax_set_major_formatter myFmt) subplot_index.

Definition plot (field : string) (subplot_index : list Z) (o : PlotOpts)
    : M Session unit :=
  drawn <- plot_draw field subplot_index o ;;
  (* Set X Limit - We want the same time axes for all subplots *)
  plot_xlimit (drawn_x drawn) subplot_index ;;;
  (* Set Y Limit *)
  plot_yrange (drawn_ydata drawn) subplot_index ;;;
  (* Set X Format *)
  plot_xformat subplot_index ;;;
  match drawn_mesh drawn with
  | Some mesh =>
      add_colorbar mesh (Some (drawn_units drawn)) subplot_index ;;; ret tt
  | None => ret tt
  end.
End Methods.

(** ** A concrete dataset and concrete collaborators

    One day (day 17897) of three samples: a 1-D field [temp] over time
    and a 2-D field [refl] over time and height. *)

Definition day0 : Z := 17897.
Definition hour : Z := 3600000000000.
Definition t_at (h : Z) : Z := (day0 * ns_per_day + h * hour)%Z.

Definition ex_variables : gmap string Variable_ :=
  list_to_map
    [("time", mkVariable ["time"] ∅ [t_at 1; t_at 12; t_at 23]);
     ("height", mkVariable ["height"] {["units" := "m"]} [100; 200]%Z);
     ("temp", mkVariable ["time"] {["units" := "C"]} [11; 15; 9]%Z);
     ("refl", mkVariable ["time"; "height"] {["units" := "dBZ"]}
                         [1; 2; 3; 4; 5; 6]%Z);
     ("lat", mkVariable [] ∅ [36]%Z);
     ("lon", mkVariable [] ∅ [-97]%Z)].

Definition ex_ds : Dataset :=
  mkDataset ex_variables (PyStr "sgpmetE13.b1") (PyStr "sgpmetE13.b1") [day0].

(** A dataset that carries no datastream name of its own. *)
Definition ex_ds_unnamed : Dataset :=
  mkDataset ex_variables PyNone (PyStr "sgpmetE13.b1") [day0].

(** An empty dataset: no covered dates, no samples. *)
Definition ex_ds_empty : Dataset :=
  mkDataset {["time" := mkVariable ["time"] ∅ []]} (PyStr "x") (PyStr "x") [].

Definition ex_collab : Collaborators :=
  mkCollaborators
    (fun d _ _ => Ok (mkSun (d * ns_per_day + 6 * hour)
                            (d * ns_per_day + 18 * hour)
                            (d * ns_per_day + 12 * hour))%Z)
    (fun days => match days with
                 | [d] => Ok (if (d <? 1)%Z then "%H:%M" else "%b %d")
                 | _ => Raise (ValueError "ambiguous truth value")
                 end)
    (fun x c => Ok (x, c))
    (fun d => "day " ++ pretty d).

(** A session without a grid, and one with two stacked subplots. *)
Definition ex_bare : Session :=
  mkSession ex_ds ex_variables (PyStr "sgpmetE13.b1") [day0]
            (Attr None) None [] [] Absent Absent Absent.

Definition ex_two : Session :=
  mkSession ex_ds ex_variables (PyStr "sgpmetE13.b1") [day0]
            (Attr (Some new_figure)) (Some (AxArr1 [new_axes; new_axes]))
            [] [] Absent Absent Absent.

(** A grid of two rows and three columns on the same dataset. *)
Definition ex_grid : Session := (add_subplots [2; 3]%Z ex_bare).1.

Definition ex_empty_bare : Session :=
  mkSession ex_ds_empty (variables ex_ds_empty) (PyStr "x") []
            (Attr None) None [] [] Absent Absent Absent.


(** ** Observations used in the statements *)

(** The Axes object of a subplot, and its x-range. *)
Definition subplot (s : Session) (idx : list Z) : option Axes :=
  match axes s with
  | Some av =>
      match axes_getitem av idx with
      | Ok (ItAxes a) => Some a
      | _ => None
      end
  | None => None
  end.

Definition subplot_xlim (s : Session) (idx : list Z) : option (Z * Z) :=
  subplot s idx ≫= xlim.


(** A sequence of plot calls in one session, each given by its field,
    its subplot index and its keyword options; it stops at the first
    call that raises. *)
Fixpoint plot_seq (E : Collaborators)
    (calls : list (string * list Z * PlotOpts)) : M Session unit :=
  match calls with
  | [] => ret tt
  | c :: rest => plot E c.1.1 c.1.2 c.2 ;;; plot_seq E rest
  end.

(** The full time extent of a field: minimum and maximum of the
    coordinate of its first dimension. *)
Definition full_time_extent (d : Dataset) (field : string) : option (Z * Z) :=
  data ← variables d !! field;
  d0 ← dims data !! 0%nat;
  x ← variables d !! d0;
  match values x with
  | [] => None
  | v :: r => Some (foldr Z.min v r, foldr Z.max v r)
  end.

(** Modelled from the spec: [data_utils.add_in_nan] is not among the
    sources; the spec has it insert gap markers into the time/data pair
    wherever a discontinuity would connect unrelated samples. Markers
    go between samples, so the extremes of the time coordinate are
    those of its input. *)
Definition gap_fill_keeps_extent (E : Collaborators) : Prop :=
  forall x c x' c', add_in_nan E x c = Ok (x', c') ->
    np_min x' = np_min x /\ np_max x' = np_max x.

(** A store has the shape of the grid it was allocated for. *)
Definition store_fits (av : AxesVal) (st : Store) : Prop :=
  match av, st with
  | AxArr1 l, St1 rows => length rows = length l
  | AxArr2 c rs, St2 rows =>
      length rows = length rs /\ Forall (fun r => length r = c) rows
  | _, _ => False
  end.


(** Row [k] of a store, counted from 0, holds [v] in each of its cells. *)
Definition row_filled (st : Store) (k : nat) (v : Z * Z) : Prop :=
  match st with
  | St1 rows => rows !! k = Some v
  | St2 rows => exists r, rows !! k = Some r /\ Forall (eq v) r
  end.

(** Row [i] of a store, as a Python index, holds the pair [v] in each
    of its cells. *)
Definition store_row_is (st : Store) (i : Z) (v : Z * Z) : Prop :=
  match st with
  | St1 rows => py_getitem rows i = Ok v
  | St2 rows => exists r, py_getitem rows i = Ok r /\ Forall (eq v) r
  end.

(** The store entry of one subplot. *)
Definition store_cell (st : Store) (idx : list Z) : res (Z * Z) :=
  match st, idx with
  | St1 rows, [i] => py_getitem rows i
  | St2 rows, [i; j] =>
      match py_getitem rows i with
      | Ok r => py_getitem r j
      | Raise e => Raise e
      end
  | _, _ => Raise IndexError
  end.

(** [keeps P m]: running [m] maintains [P], whether it returns or raises. *)
Definition keeps {A} (P : Session -> Prop) (m : M Session A) : Prop :=
  forall s, P s -> P (m s).1.

(** A method of Axes that leaves the x-range alone, or sets it to [r]. *)
Definition xlim_neutral (f : Axes -> Axes) : Prop :=
  forall a, xlim (f a) = xlim a.
Definition xlim_sets (r : Z * Z) (f : Axes -> Axes) : Prop :=
  forall a, xlim (f a) = Some r.

(** [P] survives every Axes method that leaves the x-range alone. *)
Definition ax_stable (P : Session -> Prop) : Prop :=
  forall meth f idx, xlim_neutral f -> keeps P (ax_method meth f idx).

(** [P] does not look at the attribute written by [setter]. *)
Definition ignores {X} (setter : X -> Session -> Session)
    (P : Session -> Prop) : Prop :=
  forall v s, P s -> P (setter v s).

(** The shape of the grid of a session, when it has one. *)
Definition shape_of (s : Session) : option (res (list nat)) :=
  axes_shape <$> axes s.

(** The store a range setter works on (lines 191-194, 214-217): the
    existing one, else zeros in the shape of the grid. *)
Definition alloc_store (av : AxesVal) (cur : attr Store) : res Store :=
  match cur with
  | Attr st => Ok st
  | Absent =>
      match av with
      | AxObj _ => Raise (AttributeError "shape")
      | AxArr1 l => Ok (np_zeros1 (length l))
      | AxArr2 c rows => Ok (np_zeros2 (length rows) c)
      end
  end.

(** Two Axes records that differ at most in background colour, bands
    and noon lines. *)
Definition same_but_shading (a a' : Axes) : Prop :=
  artists a' = artists a /\ title a' = title a /\ ylabel a' = ylabel a /\
  xlim a' = xlim a /\ ylim a' = ylim a /\
  major_formatter a' = major_formatter a.

(** The title plot gives a subplot: the override, else datastream,
    field and the date of the first time sample. *)
Definition plot_title (E : Collaborators) (o : PlotOpts) (s : Session)
    (field : string) : option string :=
  match set_title o with
  | Some t => Some t
  | None =>
      tv ← variables (arm s) !! "time";
      t0 ← values tv !! 0%nat;
      Some (str_of (ds s) ++ " " ++ field ++ " on " ++
            arm_date_label E (numpy_to_arm_date t0))
  end.

(** What plot draws for a 2-D field: the mesh over the time samples,
    gap-filled on request, and the second coordinate. *)
Definition mesh_of (o : PlotOpts) (xd : list Z * list Z) (yv : Variable_)
    : Artist :=
  QuadMesh xd.1 (values yv) xd.2 (cmap o) (cbmin o) (cbmax o).

(** A computation that never raises RuntimeError. *)
Definition err_of {A} (r : res A) : option exn :=
  match r with Ok _ => None | Raise e => Some e end.
Definition res_no_runtime {A} (r : res A) : Prop :=
  forall msg, err_of r <> Some (RuntimeError msg).
Definition no_runtime {A} (m : M Session A) : Prop :=
  forall s, res_no_runtime (m s).2.

(** ** Reasoning about the session monad *)

Lemma bind_ok {S A B} (m : M S A) (k : A -> M S B) s s' b :
  bind m k s = (s', Ok b) ->
  exists s1 a, m s = (s1, Ok a) /\ k a s1 = (s', Ok b).
Proof.
  unfold bind. destruct (m s) as [s1 [a|e]]; [eauto | discriminate].
Qed.

Lemma bind_ret_eq {S A B} (m : M S A) (k : A -> M S B) s s1 a :
  m s = (s1, Ok a) -> bind m k s = k a s1.
Proof. unfold bind. by intros ->. Qed.

Lemma bind_raise_eq {S A B} (m : M S A) (k : A -> M S B) s s1 e :
  m s = (s1, Raise e) -> bind m k s = (s1, Raise e).
Proof. unfold bind. by intros ->. Qed.

Lemma lift_ok {S A} (r : res A) (s s' : S) a :
  lift r s = (s', Ok a) -> s' = s /\ r = Ok a.
Proof. unfold lift. intros [= -> ->]. auto. Qed.

Lemma keeps_bind {A B} P (m : M Session A) (k : A -> M Session B) :
  keeps P m -> (forall a, keeps P (k a)) -> keeps P (bind m k).
Proof.
  intros Hm Hk s Hs. unfold bind. specialize (Hm s Hs).
  destruct (m s) as [s1 [a|e]]; simpl in *; [by apply Hk | done].
Qed.

Lemma keeps_pure {A} P (m : M Session A) :
  (forall s, (m s).1 = s) -> keeps P m.
Proof. intros H s Hs. by rewrite H. Qed.

Lemma keeps_ok {A} P (m : M Session A) s s' r :
  keeps P m -> P s -> m s = (s', r) -> P s'.
Proof. intros H Hs Hm. specialize (H s Hs). by rewrite Hm in H. Qed.

Lemma ret_pure {A} (a : A) (s : Session) : (ret a s).1 = s.
Proof. done. Qed.
Lemma raise_pure {A} e (s : Session) : (@raise _ A e s).1 = s.
Proof. done. Qed.
Lemma lift_pure {A} (r : res A) (s : Session) : (lift r s).1 = s.
Proof. done. Qed.
Lemma gets_pure {A} (f : Session -> A) (s : Session) : (gets f s).1 = s.
Proof. done. Qed.
Lemma getattr_pure {A} n (f : Session -> attr A) s : (getattr n f s).1 = s.
Proof. unfold getattr. by destruct (f s). Qed.
Lemma require_axes_pure msg s : (require_axes msg s).1 = s.
Proof. unfold require_axes. by destruct (axes s). Qed.
Lemma self_axes_getitem_pure idx s : (self_axes_getitem idx s).1 = s.
Proof. unfold self_axes_getitem. by destruct (axes s). Qed.

(** One step of a [keeps] proof: split a bind, close a read-only
    leaf, or case on the scrutinee of a branch. *)
Ltac keeps_step :=
  match goal with
  | |- keeps _ (bind _ _) => apply keeps_bind; [| intros ?]
  | |- keeps _ (ret _) => apply keeps_pure, ret_pure
  | |- keeps _ (raise _) => apply keeps_pure, raise_pure
  | |- keeps _ (lift _) => apply keeps_pure, lift_pure
  | |- keeps _ (gets _) => apply keeps_pure, gets_pure
  | |- keeps _ (getattr _ _) => apply keeps_pure, getattr_pure
  | |- keeps _ (require_axes _) => apply keeps_pure, require_axes_pure
  | |- keeps _ (self_axes_getitem _) => apply keeps_pure, self_axes_getitem_pure
  | H : ax_stable ?P |- keeps ?P (ax_method _ _ _) =>
      apply H; intros ?; reflexivity
  | H : ignores ?f ?P |- keeps ?P (modify (?f _)) =>
      let s := fresh in let Hs := fresh in
      intros s Hs; simpl; by apply H
  | |- keeps _ (match ?x with _ => _ end) => destruct x
  | |- keeps _ _ => eauto
  end.
Ltac keeps_tac := repeat keeps_step.

(** ** Indexing lemmas *)

Lemma py_index_lt n i k : py_index n i = Ok k -> k < n.
Proof.
  unfold py_index. repeat case_match; intros [= <-]; lia.
Qed.

Lemma py_index_nonneg n i :
  (0 <= i < Z.of_nat n)%Z -> py_index n i = Ok (Z.to_nat i).
Proof.
  intros H. unfold py_index.
  destruct (0 <=? i)%Z eqn:H1; destruct (i <? Z.of_nat n)%Z eqn:H2; simpl; try done; lia.
Qed.

Lemma py_index_zero n k : py_index n 0 = Ok k -> k = 0.
Proof.
  unfold py_index. simpl. rewrite andb_false_r.
  destruct (0 <? Z.of_nat n)%Z; [by intros [= <-] | done].
Qed.

Lemma py_getitem_Ok {A} (l : list A) i a :
  py_getitem l i = Ok a <->
  exists k, py_index (length l) i = Ok k /\ l !! k = Some a.
Proof.
  unfold py_getitem. split.
  - destruct (py_index (length l) i) as [k|e]; [|done].
    destruct (l !! k) eqn:Hk; [|done]. intros [= ->]. eauto.
  - intros (k & -> & ->). done.
Qed.

Lemma py_getitem_index {A} (l : list A) i k :
  py_index (length l) i = Ok k -> exists a, py_getitem l i = Ok a /\ l !! k = Some a.
Proof.
  intros Hk. destruct (lookup_lt_is_Some_2 l k (py_index_lt _ _ _ Hk)) as [a Ha].
  exists a. split; [|done]. apply py_getitem_Ok. eauto.
Qed.

Lemma py_getitem_alter {A} (f : A -> A) k (l : list A) i :
  py_getitem (alter f k l) i =
  match py_index (length l) i with
  | Ok k' => match l !! k' with
             | Some a => Ok (if decide (k = k') then f a else a)
             | None => Raise IndexError
             end
  | Raise e => Raise e
  end.
Proof.
  unfold py_getitem. rewrite length_alter.
  destruct (py_index (length l) i) as [k'|e]; [|done].
  rewrite list_lookup_alter.
  destruct (decide (k = k')) as [->|?]; destruct (l !! k'); done.
Qed.

(** A successful method call rewrites the addressed cell and nothing else. *)
Lemma axes_call_at meth f av idx av' :
  axes_call meth f av idx = Ok av' ->
  exists a, axes_getitem av idx = Ok (ItAxes a) /\
            axes_getitem av' idx = Ok (ItAxes (f a)).
Proof.
  destruct av as [a0|l|c rows]; simpl; [done| |].
  - destruct idx as [|i [|? ?]]; try done.
    destruct (py_index (length l) i) as [k|e] eqn:Hk; [|done]. intros [= <-].
    destruct (py_getitem_index l i k Hk) as (a & Ha & Hl).
    exists a. rewrite Ha. split; [done|]. simpl.
    rewrite py_getitem_alter, Hk, Hl. by rewrite decide_True.
  - destruct idx as [|i [|j [|? ?]]]; try done.
    + destruct (py_index (length rows) i); done.
    + destruct (py_index (length rows) i) as [k|e] eqn:Hk; [|done].
      destruct (py_index c j) as [m|e] eqn:Hm; [|done].
      destruct (rows !! k ≫= (.!! m)) as [a|] eqn:Ha; [|done]. intros [= <-].
      exists a. split; [done|]. simpl. rewrite length_alter, Hk, Hm.
      destruct (rows !! k) as [r|] eqn:Hr; [|done]. simpl in Ha.
      rewrite list_lookup_alter_eq, Hr. simpl.
      by rewrite list_lookup_alter_eq, Ha.
Qed.

Lemma axes_call_elsewhere meth f av idx av' j :
  axes_call meth f av idx = Ok av' ->
  axes_getitem av' j = axes_getitem av j \/
  exists a, axes_getitem av j = Ok (ItAxes a) /\
            axes_getitem av' j = Ok (ItAxes (f a)).
Proof.
  destruct av as [a0|l|c rows]; simpl; [done| |].
  - destruct idx as [|i [|? ?]]; try done.
    destruct (py_index (length l) i) as [k|e] eqn:Hk; [|done]. intros [= <-].
    simpl. destruct j as [|j1 [|? ?]]; auto.
    rewrite py_getitem_alter. unfold py_getitem.
    destruct (py_index (length l) j1) as [k'|e]; [|auto].
    destruct (l !! k') as [a|]; [|auto].
    case_decide; eauto.
  - destruct idx as [|i [|i2 [|? ?]]]; try done.
    + destruct (py_index (length rows) i); done.
    + destruct (py_index (length rows) i) as [k|e] eqn:Hk; [|done].
      destruct (py_index c i2) as [m|e] eqn:Hm; [|done].
      destruct (rows !! k ≫= (.!! m)) as [a0|] eqn:Ha; [|done]. intros [= <-].
      simpl. rewrite length_alter.
      destruct j as [|j1 [|j2 [|? ?]]]; auto.
      destruct (py_index (length rows) j1) as [k'|e]; [|auto].
      destruct (py_index c j2) as [m'|e]; [|auto].
      rewrite list_lookup_alter. case_decide; [subst k'|auto].
      destruct (rows !! k) as [r|]; simpl; [|auto].
      rewrite list_lookup_alter. case_decide; [subst m'|auto].
      destruct (r !! m) as [a|]; simpl; eauto.
Qed.

(** ** Method calls on a subplot *)

Lemma ax_method_ok meth f idx s s' :
  ax_method meth f idx s = (s', Ok tt) ->
  exists av av', axes s = Some av /\ axes_call meth f av idx = Ok av' /\
                 s' = set_axes (Some av') s.
Proof.
  unfold ax_method. destruct (axes s) as [av|]; [|done].
  destruct (axes_call meth f av idx) as [av'|e] eqn:Hc; [|done].
  intros [= <-]. eauto.
Qed.

Lemma ax_method_subplot meth f idx s s' :
  ax_method meth f idx s = (s', Ok tt) ->
  exists a, subplot s idx = Some a /\ subplot s' idx = Some (f a).
Proof.
  intros (av & av' & Hav & Hc & ->)%ax_method_ok.
  destruct (axes_call_at _ _ _ _ _ Hc) as (a & H1 & H2).
  exists a. unfold subplot. simpl. by rewrite Hav, H1, H2.
Qed.

Lemma keeps_ax_method_frame P meth f idx :
  ignores set_axes P -> keeps P (ax_method meth f idx).
Proof.
  intros HP s Hs. unfold ax_method. destruct (axes s) as [av|]; [|done].
  destruct (axes_call meth f av idx); simpl; [by apply HP | done].
Qed.

Lemma ax_stable_frame P : ignores set_axes P -> ax_stable P.
Proof. intros HP meth f idx _. by apply keeps_ax_method_frame. Qed.

Lemma subplot_xlim_after meth f idx s j :
  let s' := (ax_method meth f idx s).1 in
  subplot_xlim s' j = subplot_xlim s j \/
  exists a, subplot s j = Some a /\ subplot s' j = Some (f a).
Proof.
  unfold ax_method. destruct (axes s) as [av|] eqn:Hav; simpl; [|by left].
  destruct (axes_call meth f av idx) as [av'|e] eqn:Hc; simpl; [|by left].
  unfold subplot_xlim, subplot. simpl. rewrite Hav.
  destruct (axes_call_elsewhere _ _ _ _ _ j Hc) as [->|(a & H1 & H2)]; [by left|].
  right. exists a. by rewrite H1, H2.
Qed.

Lemma keeps_xlim_neutral j r : ax_stable (fun s => subplot_xlim s j = Some r).
Proof.
  intros meth f idx Hf s Hs.
  destruct (subplot_xlim_after meth f idx s j) as [->|(a & H1 & H2)]; [done|].
  unfold subplot_xlim in *. rewrite H2. rewrite H1 in Hs. simpl in *.
  by rewrite Hf.
Qed.

Lemma keeps_xlim_sets j r meth f idx :
  xlim_sets r f ->
  keeps (fun s => subplot_xlim s j = Some r) (ax_method meth f idx).
Proof.
  intros Hf s Hs.
  destruct (subplot_xlim_after meth f idx s j) as [->|(a & H1 & H2)]; [done|].
  unfold subplot_xlim. rewrite H2. simpl. apply Hf.
Qed.

(** ** What each method maintains *)

Section Frames.
Context (E : Collaborators) (P : Session -> Prop).

Lemma keeps_shade_days days lat lon idx :
  ax_stable P -> keeps P (shade_days E days lat lon idx).
Proof.
  intros HP. induction days as [|f rest IH]; simpl; keeps_tac.
Qed.

Lemma keeps_day_night_background idx :
  ax_stable P -> keeps P (day_night_background E idx).
Proof.
  intros HP. unfold day_night_background. keeps_tac.
  by apply keeps_shade_days.
Qed.

Lemma keeps_plot_draw field idx o :
  ax_stable P -> keeps P ensure_figure -> keeps P ensure_axes ->
  keeps P (plot_draw E field idx o).
Proof.
  intros HP Hf Ha. unfold plot_draw. keeps_tac.
  all: by apply keeps_day_night_background.
Qed.

Lemma keeps_set_xrng rng idx :
  keeps P (ax_method "set_xlim" (ax_set_xlim rng) idx) ->
  ignores set_xrng_attr P -> keeps P (set_xrng rng idx).
Proof. intros Hx HP. unfold set_xrng. keeps_tac. Qed.

Lemma keeps_set_yrng rng idx :
  ax_stable P -> ignores set_yrng_attr P -> keeps P (set_yrng rng idx).
Proof. intros Hx HP. unfold set_yrng. keeps_tac. Qed.

Lemma keeps_plot_yrange ydata idx :
  ax_stable P -> ignores set_yrng_attr P -> keeps P (plot_yrange ydata idx).
Proof.
  intros Hx HP. unfold plot_yrange. keeps_tac.
  all: by apply keeps_set_yrng.
Qed.

Lemma keeps_plot_xformat idx :
  ax_stable P -> keeps P (plot_xformat E idx).
Proof. intros Hx. unfold plot_xformat. keeps_tac. Qed.

Lemma keeps_add_colorbar mappable t idx :
  ignores set_fig P -> ignores set_cbs P ->
  keeps P (add_colorbar mappable t idx).
Proof. intros Hf Hc. unfold add_colorbar, fig_add_axes. keeps_tac. Qed.

End Frames.

Lemma keeps_add_subplots P shape :
  ignores set_fig P -> ignores set_axes P -> keeps P (add_subplots shape).
Proof. intros Hf Ha. unfold add_subplots. keeps_tac. Qed.

Lemma keeps_ensure_frame P :
  ignores set_fig P -> ignores set_axes P ->
  keeps P ensure_figure /\ keeps P ensure_axes.
Proof.
  intros Hf Ha. split; intros s Hs.
  - unfold ensure_figure. destruct (fig s) as [|[g|]]; simpl; auto.
  - unfold ensure_axes. destruct (axes s); simpl; auto.
Qed.

(** [plot] maintains whatever does not look at the attributes it
    writes: fig, axes, cbs, the two stores and the time range. *)
Lemma keeps_plot E P field idx o :
  ignores set_fig P -> ignores set_axes P -> ignores set_cbs P ->
  ignores set_xrng_attr P -> ignores set_yrng_attr P ->
  ignores set_time_rng P ->
  keeps P (plot E field idx o).
Proof.
  intros Hf Ha Hc Hx Hy Ht.
  pose proof (ax_stable_frame P Ha) as Hs.
  destruct (keeps_ensure_frame P Hf Ha) as [Hef Hea].
  unfold plot, plot_xlimit. keeps_tac.
  - by apply keeps_plot_draw.
  - apply keeps_set_xrng; [by apply keeps_ax_method_frame | done].
  - by apply keeps_plot_yrange.
  - by apply keeps_plot_xformat.
  - by apply keeps_add_colorbar.
Qed.

Lemma plot_keeps_plot_vars E field idx o v :
  keeps (fun s => plot_vars s = v) (plot E field idx o).
Proof. apply keeps_plot; by intros ? ? ?. Qed.

(** ** Session initialisation *)

Lemma is_None_py_str o : is_None (py_str o) = false.
Proof. by destruct o. Qed.

(** The label is always the text of the primary identifier: the
    alternate lookup is never consulted. *)
Lemma init_ds arm_obj shape s :
  init arm_obj shape = Ok s -> ds s = py_str (act_datastream arm_obj).
Proof.
  unfold init. rewrite is_None_py_str. destruct shape as [shape|].
  - destruct (add_subplots shape _) as [s' [[]|e]] eqn:Hadd; [|done].
    intros [= <-].
    eapply (keeps_ok (fun s => ds s = py_str (act_datastream arm_obj)));
      [| |exact Hadd]; [apply keeps_add_subplots; by intros ? ? ? | done].
  - by intros [= <-].
Qed.

(** C5: at the input where the primary datastream identifier is None
    and the alternate lookup would give "sgpmetE13.b1", the session
    label is the text "None": the fallback branch is not taken. *)
Theorem C5_fallback_never_taken :
  alt_datastream ex_ds_unnamed = PyStr "sgpmetE13.b1" /\
  act_datastream ex_ds_unnamed = PyNone /\
  exists s, init ex_ds_unnamed None = Ok s /\ ds s = PyStr "None".
Proof. repeat split. eexists. split; reflexivity. Qed.

(** ** The list of plotted fields *)

(** C4: at the input plot("temp") on a fresh session the call returns
    and the list of plotted variables is still empty, so it does not
    contain "temp". *)
Theorem C4_plot_vars_stays_empty :
  exists s1, plot ex_collab "temp" [0%Z] default_opts ex_bare = (s1, Ok tt) /\
             plot_vars s1 = [] /\ ~ In "temp" (plot_vars s1).
Proof.
  eexists. split; [vm_compute; reflexivity|]. split; [reflexivity|]. simpl. tauto.
Qed.

(** ** The not-yet-displayed guard *)

(** C3: at the input of a session without a grid whose dataset has no
    file dates and no time samples, day_night_background raises
    IndexError, not its not-yet-displayed error. *)
Theorem C3_day_night_background_guard_is_late :
  axes ex_empty_bare = None /\
  day_night_background ex_collab [0%Z] ex_empty_bare
    = (ex_empty_bare, Raise IndexError).
Proof. split; reflexivity. Qed.

(** When the date span can be determined, day_night_background does
    raise its not-yet-displayed error on a session without axes. *)
Lemma day_night_background_guard E idx s span :
  axes s = None -> shading_span (arm s) = Ok span ->
  day_night_background E idx s = (s, Raise (RuntimeError msg_dnb)).
Proof.
  intros Ha Hs. unfold day_night_background.
  rewrite (bind_ret_eq _ _ s s (arm s)) by done.
  rewrite (bind_ret_eq _ _ s s span) by (unfold lift; by rewrite Hs).
  apply bind_raise_eq. unfold require_axes. by rewrite Ha.
Qed.

Ltac nr := unfold res_no_runtime in *; simpl in *; try done.

Lemma no_runtime_bind {A B} (m : M Session A) (k : A -> M Session B) :
  no_runtime m -> (forall a, no_runtime (k a)) -> no_runtime (bind m k).
Proof.
  intros Hm Hk s. unfold bind. specialize (Hm s).
  destruct (m s) as [s1 [a|e]]; [apply Hk | nr].
Qed.

Lemma py_index_no_runtime n i : res_no_runtime (py_index n i).
Proof. unfold py_index. repeat case_match; nr. Qed.

Lemma res_mapM_no_runtime {A B} (f : A -> res B) l :
  (forall a, res_no_runtime (f a)) -> res_no_runtime (res_mapM f l).
Proof.
  intros Hf. induction l as [|a l IH]; simpl; [nr|].
  specialize (Hf a). destruct (f a); [|nr].
  destruct (res_mapM f l); nr.
Qed.

Lemma store_assign_no_runtime st idx v : res_no_runtime (store_assign st idx v).
Proof.
  unfold store_assign. destruct idx as [|i idx]; [nr|].
  pose proof (res_mapM_no_runtime (py_index (store_nrows st)) (i :: idx)
                (py_index_no_runtime _)) as H.
  destruct (res_mapM _ _); nr.
Qed.

Lemma py_getitem_no_runtime {A} (l : list A) i : res_no_runtime (py_getitem l i).
Proof.
  unfold py_getitem. pose proof (py_index_no_runtime (length l) i) as H.
  destruct (py_index _ _); [case_match; nr | nr].
Qed.

Lemma axes_getitem_no_runtime av idx : res_no_runtime (axes_getitem av idx).
Proof.
  destruct av as [a|l|c rows]; simpl; [nr| |].
  - destruct idx as [|i [|? ?]]; [nr| |nr].
    pose proof (py_getitem_no_runtime l i). destruct (py_getitem l i); nr.
  - destruct idx as [|i [|j [|? ?]]]; [nr| | |nr].
    + pose proof (py_index_no_runtime (length rows) i).
      destruct (py_index _ _); nr.
    + pose proof (py_index_no_runtime (length rows) i).
      pose proof (py_index_no_runtime c j).
      destruct (py_index (length rows) i), (py_index c j); [case_match; nr|nr..].
Qed.

Lemma axes_call_no_runtime meth f av idx : res_no_runtime (axes_call meth f av idx).
Proof.
  destruct av as [a|l|c rows]; simpl; [nr| |].
  - destruct idx as [|i [|? ?]]; [nr| |nr].
    pose proof (py_index_no_runtime (length l) i). destruct (py_index _ _); nr.
  - destruct idx as [|i [|j [|? ?]]]; [nr| | |nr].
    + pose proof (py_index_no_runtime (length rows) i).
      destruct (py_index _ _); nr.
    + pose proof (py_index_no_runtime (length rows) i).
      pose proof (py_index_no_runtime c j).
      destruct (py_index (length rows) i), (py_index c j); [case_match; nr|nr..].
Qed.

Lemma ax_method_no_runtime meth f idx : no_runtime (ax_method meth f idx).
Proof.
  intros s. unfold ax_method. destruct (axes s) as [av|]; [|nr].
  pose proof (axes_call_no_runtime meth f av idx).
  destruct (axes_call _ _ _ _); nr.
Qed.

Lemma self_axes_getitem_no_runtime idx : no_runtime (self_axes_getitem idx).
Proof.
  intros s. unfold self_axes_getitem. destruct (axes s) as [av|]; [|nr].
  apply axes_getitem_no_runtime.
Qed.

Lemma getattr_no_runtime {A} n (f : Session -> attr A) : no_runtime (getattr n f).
Proof. intros s. unfold getattr. destruct (f s); nr. Qed.

Lemma lift_no_runtime {A} (r : res A) : res_no_runtime r -> no_runtime (lift r).
Proof. intros H s. exact H. Qed.

Lemma axes_shape_no_runtime av : res_no_runtime (axes_shape av).
Proof. destruct av; nr. Qed.

Ltac no_runtime_step :=
  match goal with
  | |- no_runtime (bind _ _) => apply no_runtime_bind; [| intros ?]
  | |- no_runtime (ax_method _ _ _) => apply ax_method_no_runtime
  | |- no_runtime (self_axes_getitem _) => apply self_axes_getitem_no_runtime
  | |- no_runtime (getattr _ _) => apply getattr_no_runtime
  | |- no_runtime (lift (store_assign _ _ _)) =>
      apply lift_no_runtime, store_assign_no_runtime
  | |- no_runtime (lift (axes_shape _)) =>
      apply lift_no_runtime, axes_shape_no_runtime
  | |- no_runtime (match ?x with _ => _ end) => destruct x
  | |- no_runtime _ => intros ?; nr
  end.

(** Past its guard, a range setter never raises RuntimeError. *)
Lemma set_xrng_guarded rng idx s s' msg :
  set_xrng rng idx s = (s', Raise (RuntimeError msg)) ->
  axes s = None /\ s' = s /\ msg = msg_xrng.
Proof.
  unfold set_xrng, bind at 1, require_axes.
  destruct (axes s) as [av|]; [|by intros [= <- <-]].
  match goal with |- ?m s = _ -> _ => assert (no_runtime m) as H end.
  { repeat no_runtime_step. }
  intros Hm. specialize (H s msg). rewrite Hm in H. nr.
Qed.

Lemma set_yrng_guarded rng idx s s' msg :
  set_yrng rng idx s = (s', Raise (RuntimeError msg)) ->
  axes s = None /\ s' = s /\ msg = msg_yrng.
Proof.
  unfold set_yrng, bind at 1, require_axes.
  destruct (axes s) as [av|]; [|by intros [= <- <-]].
  match goal with |- ?m s = _ -> _ => assert (no_runtime m) as H end.
  { repeat no_runtime_step. }
  intros Hm. specialize (H s msg). rewrite Hm in H. nr.
Qed.

Lemma add_colorbar_guarded mappable t idx s s' msg :
  add_colorbar mappable t idx s = (s', Raise (RuntimeError msg)) ->
  axes s = None /\ s' = s /\ msg = msg_cbar.
Proof.
  unfold add_colorbar, bind at 1, require_axes.
  destruct (axes s) as [av|]; [|by intros [= <- <-]].
  match goal with |- ?m s = _ -> _ => assert (no_runtime m) as H end.
  { unfold fig_add_axes. repeat no_runtime_step. }
  intros Hm. specialize (H s msg). rewrite Hm in H. nr.
Qed.

(** C10: set_xrng, set_yrng and add_colorbar raise the
    not-yet-displayed error exactly when the axes are unset, and then
    the session is left as it was: no store is allocated, no range is
    recorded, no colorbar handle is appended. *)
Theorem C10_guard_leaves_session_unchanged s s' :
  (forall rng idx,
     set_xrng rng idx s = (s', Raise (RuntimeError msg_xrng)) <->
     axes s = None /\ s' = s) /\
  (forall rng idx,
     set_yrng rng idx s = (s', Raise (RuntimeError msg_yrng)) <->
     axes s = None /\ s' = s) /\
  (forall mappable t idx,
     add_colorbar mappable t idx s = (s', Raise (RuntimeError msg_cbar)) <->
     axes s = None /\ s' = s).
Proof.
  repeat split.
  1,2: by apply set_xrng_guarded in H as (? & ? & ?).
  2,3: by apply set_yrng_guarded in H as (? & ? & ?).
  3,4: by apply add_colorbar_guarded in H as (? & ? & ?).
  - intros [Ha ->]. unfold set_xrng, bind, require_axes. by rewrite Ha.
  - intros [Ha ->]. unfold set_yrng, bind, require_axes. by rewrite Ha.
  - intros [Ha ->]. unfold add_colorbar, bind, require_axes. by rewrite Ha.
Qed.

Lemma C10_witness :
  set_xrng (t_at 1, t_at 23) [0%Z] ex_bare
    = (ex_bare, Raise (RuntimeError msg_xrng)) /\
  set_yrng (0, 10)%Z [0%Z] ex_bare
    = (ex_bare, Raise (RuntimeError msg_yrng)) /\
  add_colorbar (Line2D [] [] "." "k") None [0%Z] ex_bare
    = (ex_bare, Raise (RuntimeError msg_cbar)).
Proof.
  destruct (C10_guard_leaves_session_unchanged ex_bare ex_bare) as (Hx & Hy & Hc).
  split; [|split].
  - apply Hx. split; reflexivity.
  - apply Hy. split; reflexivity.
  - apply Hc. split; reflexivity.
Defined.

(** ** Grid construction *)







(** ** The y-range step of plot *)

Lemma pairs_not_single (l : list (Z * Z)) x : l ≫= pair_elems <> [x].
Proof. by destruct l. Qed.

Lemma rows_not_single (rows : list (list (Z * Z))) x :
  rows ≫= (fun r => r ≫= pair_elems) <> [x].
Proof.
  induction rows as [|r rows IH]; [done|].
  destruct r as [|p r]; [exact IH | done].
Qed.

(** Whatever is read out of a store, comparing it with [np.zeros(2)]
    never gives a one-element array. *)
Lemma store_getitem_not_single st idx x : store_getitem st idx <> Ok (Vec [x]).
Proof.
  destruct st as [rows|rows]; simpl.
  - destruct idx as [|i [|j [|? ?]]]; try done.
    + intros [= H]. by apply pairs_not_single in H.
    + by destruct (py_getitem rows i).
    + destruct (py_getitem rows i) as [p|]; [|done]. by destruct (pair_get p j).
  - destruct idx as [|i [|j [|k [|? ?]]]]; try done.
    + intros [= H]. by apply rows_not_single in H.
    + destruct (py_getitem rows i) as [r|]; [|done].
      intros [= H]. by apply pairs_not_single in H.
    + destruct (py_getitem rows i) as [r|]; [|done]. by destruct (py_getitem r j).
    + destruct (py_getitem rows i) as [r|]; [|done].
      destruct (py_getitem r j) as [p|]; [|done]. by destruct (pair_get p k).
Qed.

(** Once the y-range store exists, the y-range step always raises:
    the truth value of the elementwise comparison is ambiguous. *)
Lemma plot_yrange_raises ydata idx s st s' :
  yrng s = Attr st -> plot_yrange ydata idx s <> (s', Ok tt).
Proof.
  intros Hy. unfold plot_yrange, bind at 1, gets. rewrite Hy.
  unfold bind at 1, lift.
  pose proof (store_getitem_not_single st idx) as Hns.
  destruct (store_getitem st idx) as [v|e]; [|done].
  unfold bind at 1.
  destruct v as [x|l]; simpl; [done|].
  destruct l as [|x [|y l]]; simpl; [done| |done].
  by destruct (Hns x).
Qed.

Lemma keeps_plot_xlimit P x idx :
  (forall rng, keeps P (ax_method "set_xlim" (ax_set_xlim rng) idx)) ->
  ignores set_xrng_attr P -> ignores set_time_rng P ->
  keeps P (plot_xlimit x idx).
Proof.
  intros Hx Hs Ht. unfold plot_xlimit. keeps_tac. by apply keeps_set_xrng.
Qed.

(** Once set_yrng has been used in a session, no call of plot returns. *)
Lemma plot_raises_once_yrng_exists E field idx o s st s' :
  yrng s = Attr st -> plot E field idx o s <> (s', Ok tt).
Proof.
  intros Hy Hp. unfold plot in Hp.
  apply bind_ok in Hp as (s1 & drawn & Hd & Hp).
  apply bind_ok in Hp as (s2 & [] & Hx & Hp).
  apply bind_ok in Hp as (s3 & [] & Hyr & _).
  set (P := fun s : Session => yrng s = Attr st).
  assert (ignores set_axes P) as Ha by (by intros ? ? ?).
  assert (ignores set_fig P) as Hf by (by intros ? ? ?).
  destruct (keeps_ensure_frame P Hf Ha) as [Hef Hea].
  assert (P s1) as H1.
  { eapply keeps_ok; [|exact Hy|exact Hd].
    apply keeps_plot_draw; [by apply ax_stable_frame|done..]. }
  assert (P s2) as H2.
  { eapply keeps_ok; [|exact H1|exact Hx].
    apply keeps_plot_xlimit; [|by intros ? ? ?..].
    intros rng. by apply keeps_ax_method_frame. }
  by eapply plot_yrange_raises.
Qed.

(** C2: at the input where set_yrng((0, 10), (0,)) precedes the plot
    of the 2-D field "refl" on subplot (0,), the stored range is the
    explicit one, and plot raises ValueError at the truth test of the
    comparison with the zero sentinel instead of re-applying it. *)
Theorem C2_plot_raises_after_set_yrng :
  exists s1 s2 msg,
    set_yrng (0, 10)%Z [0%Z] ex_two = (s1, Ok tt) /\
    yrng s1 = Attr (St1 [(0, 10); (0, 0)]%Z) /\
    plot ex_collab "refl" [0%Z] default_opts s1 = (s2, Raise (ValueError msg)).
Proof.
  do 3 eexists. split; [vm_compute; reflexivity|].
  split; [reflexivity|]. vm_compute. reflexivity.
Qed.

(** ** Day/night shading *)

Lemma axes_call_total meth f av idx a :
  axes_getitem av idx = Ok (ItAxes a) ->
  exists av', axes_call meth f av idx = Ok av'.
Proof.
  destruct av as [a0|l|c rows]; simpl; [done| |].
  - destruct idx as [|i [|? ?]]; try done.
    unfold py_getitem. destruct (py_index (length l) i); [eauto|done].
  - destruct idx as [|i [|j [|? ?]]]; try done.
    + by destruct (py_index (length rows) i).
    + destruct (py_index (length rows) i) as [k|]; [|done].
      destruct (py_index c j) as [m|]; [|done].
      destruct (rows !! k ≫= (.!! m)); [eauto|done].
Qed.





(** ** The x-range store *)

Lemma store_fill_row_nrows v k st :
  store_nrows (store_fill_row v k st) = store_nrows st.
Proof.
  destruct st as [rows|rows]; simpl; [apply length_insert | apply length_alter].
Qed.

Lemma store_fill_row_here v k st :
  k < store_nrows st -> row_filled (store_fill_row v k st) k v.
Proof.
  destruct st as [rows|rows]; simpl; intros Hk.
  - by apply list_lookup_insert_eq.
  - destruct (lookup_lt_is_Some_2 rows k Hk) as [r Hr].
    exists ((fun _ => v) <$> r). rewrite list_lookup_alter_eq, Hr. split; [done|].
    apply Forall_fmap. by apply Forall_true.
Qed.

Lemma store_fill_row_keeps v k st k' :
  row_filled st k' v -> row_filled (store_fill_row v k st) k' v.
Proof.
  destruct st as [rows|rows]; simpl.
  - intros Hk'. destruct (decide (k = k')) as [->|Hne].
    + apply list_lookup_insert_eq. by eapply lookup_lt_Some.
    + by rewrite list_lookup_insert_ne.
  - intros (r & Hr & HF). destruct (decide (k = k')) as [->|Hne].
    + exists ((fun _ => v) <$> r). rewrite list_lookup_alter_eq, Hr. split; [done|].
      apply Forall_fmap. by apply Forall_true.
    + exists r. by rewrite list_lookup_alter_ne.
Qed.

Lemma foldr_fill_nrows v ks st :
  store_nrows (foldr (store_fill_row v) st ks) = store_nrows st.
Proof.
  induction ks as [|k ks IH]; simpl; [done|]. by rewrite store_fill_row_nrows.
Qed.

Lemma foldr_fill_rows v ks st k :
  k ∈ ks -> k < store_nrows st ->
  row_filled (foldr (store_fill_row v) st ks) k v.
Proof.
  induction ks as [|k0 ks IH]; simpl; intros Hin Hk; [by apply elem_of_nil in Hin|].
  apply elem_of_cons in Hin as [->|Hin].
  - apply store_fill_row_here. by rewrite foldr_fill_nrows.
  - apply store_fill_row_keeps. by apply IH.
Qed.

Lemma res_mapM_elem {A B} (f : A -> res B) l bs a :
  res_mapM f l = Ok bs -> a ∈ l -> exists b, f a = Ok b /\ b ∈ bs.
Proof.
  revert bs. induction l as [|x l IH]; intros bs; simpl.
  - intros _ Hin. by apply elem_of_nil in Hin.
  - destruct (f x) as [b|] eqn:Hx; [|done].
    destruct (res_mapM f l) as [bs'|]; [|done]. intros [= <-] Hin.
    apply elem_of_cons in Hin as [->|Hin].
    + exists b. split; [done|]. by left.
    + destruct (IH bs' eq_refl Hin) as (b' & Hb' & Hin'). exists b'.
      split; [done|]. by right.
Qed.

Lemma row_filled_is st i k v :
  py_index (store_nrows st) i = Ok k -> row_filled st k v -> store_row_is st i v.
Proof.
  destruct st as [rows|rows]; simpl; intros Hi.
  - intros Hk. apply py_getitem_Ok. eauto.
  - intros (r & Hr & HF). exists r. split; [|done]. apply py_getitem_Ok. eauto.
Qed.

Lemma store_assign_nrows st idx v st' :
  store_assign st idx v = Ok st' -> store_nrows st' = store_nrows st.
Proof.
  unfold store_assign. destruct idx as [|i idx]; [done|].
  destruct (res_mapM _ _) as [ks|]; [|done]. intros [= <-].
  apply foldr_fill_nrows.
Qed.

(** After [store[subplot_index, :] = v] every row named by the index
    holds [v]. *)
Lemma store_assign_rows st idx v st' :
  store_assign st idx v = Ok st' ->
  forall i, i ∈ idx -> store_row_is st' i v.
Proof.
  intros Ha i Hin. pose proof (store_assign_nrows _ _ _ _ Ha) as Hn.
  unfold store_assign in Ha. destruct idx as [|i0 idx]; [done|].
  destruct (res_mapM _ _) as [ks|] eqn:Hks; [|done]. injection Ha as <-.
  destruct (res_mapM_elem _ _ _ _ Hks Hin) as (k & Hk & Hkin).
  apply (row_filled_is _ i k); [by rewrite Hn|].
  apply foldr_fill_rows; [done|]. by eapply py_index_lt.
Qed.

Lemma store_fill_row_fits av v k st :
  store_fits av st -> store_fits av (store_fill_row v k st).
Proof.
  destruct av as [a|l|c rs], st as [rows|rows]; simpl; try done.
  - by rewrite length_insert.
  - intros [Hl HF]. rewrite length_alter. split; [done|].
    apply Forall_alter; [done|]. intros r _ Hr. by rewrite length_fmap.
Qed.

Lemma store_assign_fits av st idx v st' :
  store_fits av st -> store_assign st idx v = Ok st' -> store_fits av st'.
Proof.
  intros Hf. unfold store_assign. destruct idx as [|i idx]; [done|].
  destruct (res_mapM _ _) as [ks|]; [|done]. intros [= <-].
  induction ks as [|k ks IH]; simpl; [done|]. by apply store_fill_row_fits.
Qed.

(** What a successful set_xrng has done. *)
Lemma set_xrng_ok rng idx s s' :
  set_xrng rng idx s = (s', Ok tt) ->
  exists av av' st0 st',
    axes s = Some av /\
    match xrng s with
    | Attr st => st0 = st
    | Absent => match av with
                | AxObj _ => False
                | AxArr1 l => st0 = np_zeros1 (length l)
                | AxArr2 c rows => st0 = np_zeros2 (length rows) c
                end
    end /\
    axes_call "set_xlim" (ax_set_xlim rng) av idx = Ok av' /\
    store_assign st0 idx (to_day rng.1, to_day rng.2) = Ok st' /\
    s' = set_xrng_attr (Attr st') (set_axes (Some av') s).
Proof.
  unfold set_xrng. intros H.
  apply bind_ok in H as (s0 & av & Hreq & H).
  unfold require_axes in Hreq. destruct (axes s) as [av0|] eqn:Hav; [|done].
  injection Hreq as <- <-.
  apply bind_ok in H as (s0 & x & Hx & H). injection Hx as <- <-.
  apply bind_ok in H as (s1 & [] & Halloc & H).
  apply bind_ok in H as (s2 & [] & Hm & H).
  apply bind_ok in H as (s3 & st0 & Hget & H).
  apply bind_ok in H as (s4 & st' & Hassign & H).
  apply lift_ok in Hassign as [-> Hassign].
  unfold getattr in Hget. destruct (xrng s2) as [|stx] eqn:Hx2; [done|].
  injection Hget as <- <-. injection H as <-.
  apply ax_method_ok in Hm as (av1 & av' & Hav1 & Hcall & ->).
  simpl in Hx2.
  exists av0, av', stx, st'.
  destruct (xrng s) as [|st] eqn:Hxs.
  - apply bind_ok in Halloc as (s0 & shape & Hshape & Halloc).
    apply lift_ok in Hshape as [-> Hshape].
    destruct av0 as [a|l|c rows]; simpl in Hshape; [done| |].
    + injection Hshape as <-. injection Halloc as <-. simpl in *.
      injection Hx2 as <-. rewrite Hav in Hav1. injection Hav1 as <-.
      by repeat split.
    + injection Hshape as <-. injection Halloc as <-. simpl in *.
      injection Hx2 as <-. rewrite Hav in Hav1. injection Hav1 as <-.
      by repeat split.
  - injection Halloc as <-. rewrite Hxs in Hx2. injection Hx2 as <-.
    rewrite Hav in Hav1. injection Hav1 as <-. by repeat split.
Qed.


Lemma py_getitem_filled (r : list (Z * Z)) j v p :
  Forall (eq v) r -> py_getitem r j = Ok p -> p = v.
Proof.
  intros HF (k & _ & Hk)%py_getitem_Ok.
  symmetry. by eapply (Forall_lookup_1 _ _ _ _ HF).
Qed.




(** ** The shared time range *)

Lemma plot_inputs_ok d field data xdata ydata u yt :
  plot_inputs d field = Ok (data, xdata, ydata, u, yt) ->
  exists d0, variables d !! field = Some data /\
             dims data !! 0%nat = Some d0 /\
             variables d !! d0 = Some xdata.
Proof.
  unfold plot_inputs, ds_getitem.
  destruct (variables d !! field) as [data'|] eqn:Hf; [|done].
  destruct (py_getitem (dims data') 0) as [d0|] eqn:Hd0; [|done].
  destruct (variables d !! d0) as [x|] eqn:Hx; [|done].
  destruct (attrs_getitem data' "units"); [|done].
  assert (dims data' !! 0%nat = Some d0) as Hd.
  { apply py_getitem_Ok in Hd0 as (k & Hk & Hl).
    by apply py_index_zero in Hk as ->. }
  case_match.
  - destruct (py_getitem (dims data') 1) as [d1|]; [|done].
    destruct (variables d !! d1) as [y|]; [|done].
    destruct (attrs_getitem y "units"); [|done].
    intros [= <- <- <- <- <-]. eauto.
  - intros [= <- <- <- <- <-]. eauto.
Qed.

Lemma extent_of_min_max d field data d0 x lo hi :
  variables d !! field = Some data -> dims data !! 0%nat = Some d0 ->
  variables d !! d0 = Some x ->
  np_min (values x) = Ok lo -> np_max (values x) = Ok hi ->
  full_time_extent d field = Some (lo, hi).
Proof.
  intros Hf Hd Hx. unfold full_time_extent. rewrite Hf. simpl.
  rewrite Hd. simpl. rewrite Hx. simpl.
  destruct (values x) as [|v r]; [done|]. simpl. by intros [= <-] [= <-].
Qed.

(** The x samples that the drawing part hands on have the extent of
    the field's time coordinate. *)
Lemma plot_draw_extent E field idx o s s1 drawn lo hi :
  gap_fill_keeps_extent E ->
  plot_draw E field idx o s = (s1, Ok drawn) ->
  np_min (drawn_x drawn) = Ok lo -> np_max (drawn_x drawn) = Ok hi ->
  full_time_extent (arm s) field = Some (lo, hi).
Proof.
  intros Hgap H. unfold plot_draw in H.
  apply bind_ok in H as (s0 & d & Hd & H). injection Hd as <- <-.
  apply bind_ok in H as (s0 & inp & Hinp & H).
  apply lift_ok in Hinp as [-> Hinp].
  destruct inp as [[[[data xdata] ydata] units] ytitle].
  destruct (plot_inputs_ok _ _ _ _ _ _ _ Hinp) as (d0 & Hf & Hd0 & Hx).
  apply bind_ok in H as (s2 & [] & _ & H).
  apply bind_ok in H as (s3 & [] & _ & H).
  apply bind_ok in H as (s4 & it & _ & H).
  apply bind_ok in H as (s5 & dr & Hdr & H).
  apply bind_ok in H as (s6 & t & _ & H).
  apply bind_ok in H as (s7 & [] & _ & H).
  apply bind_ok in H as (s8 & [] & _ & H).
  injection H as _ <-.
  assert (np_min (drawn_x dr) = np_min (values xdata) /\
          np_max (drawn_x dr) = np_max (values xdata)) as [Hmin Hmax].
  { destruct ydata as [yv|].
    - apply bind_ok in Hdr as (s9 & xd & Hxd & Hdr).
      apply bind_ok in Hdr as (s10 & [] & _ & Hdr). injection Hdr as _ <-.
      simpl. destruct (add_nan o).
      + apply lift_ok in Hxd as [_ Hxd]. destruct xd as [x' c'].
        by apply Hgap in Hxd.
      + by injection Hxd as _ <-.
    - apply bind_ok in Hdr as (s9 & [] & _ & Hdr).
      apply bind_ok in Hdr as (s10 & [] & _ & Hdr). by injection Hdr as _ <-. }
  rewrite Hmin, Hmax. by apply extent_of_min_max with data d0.
Qed.

Lemma set_xrng_xlim rng idx s s' :
  set_xrng rng idx s = (s', Ok tt) ->
  subplot_xlim s' idx = Some rng /\ time_rng s' = time_rng s.
Proof.
  intros (av & av' & st0 & st' & Hav & _ & Hcall & _ & ->)%set_xrng_ok.
  split; [|done].
  destruct (axes_call_at _ _ _ _ _ Hcall) as (a & _ & Ha').
  unfold subplot_xlim, subplot. simpl. by rewrite Ha'.
Qed.

Lemma keeps_xlim_set_xrng j r idx :
  keeps (fun s => subplot_xlim s j = Some r) (set_xrng r idx).
Proof.
  apply keeps_set_xrng; [|by intros ? ? ?].
  by apply keeps_xlim_sets.
Qed.

(** Lines 331-335: the range applied is the session's time range,
    computed here only when the session has none. *)
Lemma plot_xlimit_ok x idx s s' :
  plot_xlimit x idx s = (s', Ok tt) ->
  exists r,
    time_rng s' = Attr r /\
    subplot_xlim s' idx = Some r /\
    match time_rng s with
    | Attr r0 => r = r0
    | Absent => np_min x = Ok r.1 /\ np_max x = Ok r.2
    end /\
    forall j, subplot_xlim s j = Some r -> subplot_xlim s' j = Some r.
Proof.
  unfold plot_xlimit. intros H.
  apply bind_ok in H as (s0 & tr & Htr & H). injection Htr as <- <-.
  apply bind_ok in H as (s1 & [] & Hset & H).
  apply bind_ok in H as (s2 & r' & Hget & H).
  unfold getattr in Hget. destruct (time_rng s1) as [|r] eqn:Hr1; [done|].
  injection Hget as <- <-.
  destruct (set_xrng_xlim _ _ _ _ H) as [Hx Ht].
  exists r. rewrite Ht, Hr1. split; [done|]. split; [done|].
  assert (match time_rng s with
          | Attr r0 => r = r0 /\ s1 = s
          | Absent => (np_min x = Ok r.1 /\ np_max x = Ok r.2) /\
                      s1 = set_time_rng (Attr r) s
          end) as Hs1.
  { destruct (time_rng s) as [|r0] eqn:Hts.
    - apply bind_ok in Hset as (s3 & lo & Hlo & Hset).
      apply lift_ok in Hlo as [-> Hlo].
      apply bind_ok in Hset as (s3 & hi & Hhi & Hset).
      apply lift_ok in Hhi as [-> Hhi].
      injection Hset as <-. simpl in Hr1. injection Hr1 as <-. done.
    - injection Hset as <-. rewrite Hts in Hr1. by injection Hr1 as <-. }
  split.
  - destruct (time_rng s); tauto.
  - intros j Hj.
    eapply (keeps_ok _ _ s1 s' _ (keeps_xlim_set_xrng j r idx)); [|exact H].
    destruct (time_rng s); destruct Hs1 as [_ ->]; done.
Qed.

Lemma keeps_xlim_ensure j r :
  keeps (fun s => subplot_xlim s j = Some r) ensure_figure /\
  keeps (fun s => subplot_xlim s j = Some r) ensure_axes.
Proof.
  split; intros s Hs.
  - unfold ensure_figure. by destruct (fig s) as [|[g|]].
  - unfold ensure_axes. destruct (axes s) eqn:Ha; [done|].
    unfold subplot_xlim, subplot in Hs. by rewrite Ha in Hs.
Qed.

(** What a call of plot that returns has done to the time range and
    to the x-ranges of the subplots. *)
Lemma plot_ok E field idx o s s' :
  gap_fill_keeps_extent E ->
  plot E field idx o s = (s', Ok tt) ->
  exists r,
    time_rng s' = Attr r /\
    subplot_xlim s' idx = Some r /\
    match time_rng s with
    | Attr r0 => r = r0
    | Absent => full_time_extent (arm s) field = Some r
    end /\
    forall j, subplot_xlim s j = Some r -> subplot_xlim s' j = Some r.
Proof.
  intros Hgap H. unfold plot in H.
  apply bind_ok in H as (s1 & drawn & Hdraw & H).
  apply bind_ok in H as (s2 & [] & Hxl & H).
  apply bind_ok in H as (s3 & [] & Hyr & H).
  apply bind_ok in H as (s4 & [] & Hfmt & H).
  destruct (plot_xlimit_ok _ _ _ _ Hxl) as (r & Ht2 & Hx2 & Hfrom & Hkeep).
  (* the drawing part does not touch the time range *)
  assert (time_rng s1 = time_rng s) as Ht1.
  { set (P := fun s0 : Session => time_rng s0 = time_rng s).
    assert (ignores set_axes P) as Ha by (by intros ? ? ?).
    assert (ignores set_fig P) as Hf by (by intros ? ? ?).
    destruct (keeps_ensure_frame P Hf Ha) as [Hef Hea].
    eapply (keeps_ok P); [|reflexivity|exact Hdraw].
    apply keeps_plot_draw; [by apply ax_stable_frame|done..]. }
  (* nor do the steps after the x-limit *)
  assert (forall P : Session -> Prop,
            ax_stable P -> ignores set_yrng_attr P ->
            ignores set_fig P -> ignores set_cbs P -> P s2 -> P s') as Htail.
  { intros P Hax Hy Hf Hc H2.
    assert (P s3) as H3
      by (eapply keeps_ok; [by apply keeps_plot_yrange|exact H2|exact Hyr]).
    assert (P s4) as H4
      by (eapply keeps_ok; [by apply (keeps_plot_xformat E)|exact H3|exact Hfmt]).
    destruct (drawn_mesh drawn) as [mesh|]; [|by injection H as <-].
    apply bind_ok in H as (s5 & cb & Hcb & H). injection H as <-.
    eapply keeps_ok; [by apply keeps_add_colorbar|exact H4|exact Hcb]. }
  exists r. split; [|split; [|split]].
  - apply (Htail (fun s0 => time_rng s0 = Attr r));
      [apply ax_stable_frame|..|exact Ht2]; by intros ? ? ?.
  - apply (Htail (fun s0 => subplot_xlim s0 idx = Some r));
      [apply keeps_xlim_neutral|..|exact Hx2]; by intros ? ? ?.
  - rewrite Ht1 in Hfrom. destruct (time_rng s) as [|r0]; [|done].
    destruct Hfrom as [Hlo Hhi]. destruct r as [lo hi].
    by eapply plot_draw_extent.
  - intros j Hj.
    apply (Htail (fun s0 => subplot_xlim s0 j = Some r));
      [apply keeps_xlim_neutral|by intros ? ? ?..|].
    apply Hkeep.
    destruct (keeps_xlim_ensure j r) as [Hef Hea].
    eapply (keeps_ok (fun s0 => subplot_xlim s0 j = Some r)); [|exact Hj|exact Hdraw].
    apply keeps_plot_draw; [apply keeps_xlim_neutral|done..].
Qed.

Lemma plot_seq_ok E calls :
  gap_fill_keeps_extent E ->
  forall s s' ext,
    time_rng s = Attr ext ->
    plot_seq E calls s = (s', Ok tt) ->
    time_rng s' = Attr ext /\
    (forall c, c ∈ calls -> subplot_xlim s' c.1.2 = Some ext) /\
    (forall j, subplot_xlim s j = Some ext -> subplot_xlim s' j = Some ext).
Proof.
  intros Hgap. induction calls as [|c rest IH]; intros s s' ext Ht H.
  - injection H as <-. split; [done|]. split; [|done].
    intros c Hc. by apply elem_of_nil in Hc.
  - simpl in H. apply bind_ok in H as (s1 & [] & Hc & Hrest).
    destruct (plot_ok _ _ _ _ _ _ Hgap Hc) as (r & Ht1 & Hx1 & Hsame & Hkeep).
    rewrite Ht in Hsame. subst r.
    destruct (IH _ _ _ Ht1 Hrest) as (Ht' & Hall & Hkeep').
    split; [done|]. split.
    + intros c' [->|Hin]%elem_of_cons; [by apply Hkeep' | by apply Hall].
    + intros j Hj. by apply Hkeep', Hkeep.
Qed.

(** C1: in a session that has no time range yet, let a first call
    plot(A) and then any number of further plot calls return, on any
    subplot indices. The time range of the session is then the
    minimum and maximum of the time coordinate of A, the first field
    plotted, and the x-range of every subplot that was plotted on,
    that of A included, is that same extent. With one further call
    plot(B): both subplots have the full time extent of A. *)
Theorem C1_shared_time_range E s0 fA iA oA rest s' :
  gap_fill_keeps_extent E ->
  time_rng s0 = Absent ->
  plot_seq E ((fA, iA, oA) :: rest) s0 = (s', Ok tt) ->
  exists ext,
    full_time_extent (arm s0) fA = Some ext /\
    time_rng s' = Attr ext /\
    forall c, c ∈ (fA, iA, oA) :: rest -> subplot_xlim s' c.1.2 = Some ext.
Proof.
  intros Hgap H0 H. simpl in H.
  apply bind_ok in H as (s1 & [] & HA & Hrest).
  destruct (plot_ok _ _ _ _ _ _ Hgap HA) as (ext & Ht1 & Hx1 & Hfrom & _).
  rewrite H0 in Hfrom.
  destruct (plot_seq_ok E rest Hgap _ _ _ Ht1 Hrest) as (Ht' & Hall & Hkeep).
  exists ext. split; [done|]. split; [done|].
  intros c [->|Hin]%elem_of_cons; [by apply Hkeep | by apply Hall].
Qed.

Lemma ex_collab_gap_fill : gap_fill_keeps_extent ex_collab.
Proof. intros x c x' c' [= <- <-]. done. Qed.

Lemma C1_witness :
  exists ext,
    full_time_extent (arm ex_two) "temp" = Some ext /\
    time_rng (plot_seq ex_collab [("temp", [0%Z], default_opts);
                                  ("refl", [1%Z], default_opts)] ex_two).1
      = Attr ext /\
    forall c, c ∈ [("temp", [0%Z], default_opts); ("refl", [1%Z], default_opts)] ->
      subplot_xlim (plot_seq ex_collab [("temp", [0%Z], default_opts);
                                        ("refl", [1%Z], default_opts)] ex_two).1
                   c.1.2 = Some ext.
Proof.
  apply (C1_shared_time_range ex_collab ex_two "temp" [0%Z] default_opts
           [("refl", [1%Z], default_opts)] _ ex_collab_gap_fill).
  - reflexivity.
  - vm_compute. reflexivity.
Defined.

(** * Further properties of the display

    Properties of the same methods beyond the claims above: the 2-D
    grids, the stores, the colorbar list, and what [plot] leaves on a
    subplot. *)

(** ** Grids with two shape entries *)

Lemma add_subplots_installs s f shape fg av :
  fig s = Attr f ->
  (forall s1 : Session,
     match shape with
     | [r; c] => lift (plt_subplots r c)
     | [n] =>
         fa <- lift (plt_subplots n 1) ;;
         if (n =? 1)%Z then ret (fa.1, np_array_of fa.2) else ret fa
     | _ => raise (ValueError invalid_shape_msg)
     end s1 = (s1, Ok (fg, av))) ->
  add_subplots shape s =
  (set_axes (Some av)
     (set_fig (Attr (Some fg))
        (match f with Some _ => set_fig Absent s | None => s end)), Ok tt).
Proof.
  intros Hf Hgrid. unfold add_subplots.
  rewrite (bind_ret_eq _ _ s s f) by (unfold getattr; by rewrite Hf).
  set (s1 := match f with Some _ => set_fig Absent s | None => s end).
  rewrite (bind_ret_eq _ _ s s1 tt) by (by destruct f).
  rewrite (bind_ret_eq _ _ s1 s1 (fg, av)) by apply Hgrid.
  reflexivity.
Qed.

Lemma plt_subplots_grid r c :
  (2 <= r)%Z -> (2 <= c)%Z ->
  plt_subplots r c =
  Ok (new_figure,
      AxArr2 (Z.to_nat c) (replicate (Z.to_nat r) (replicate (Z.to_nat c) new_axes))).
Proof.
  intros Hr Hc. unfold plt_subplots.
  destruct (r <? 1)%Z eqn:H1; [lia|]. destruct (c <? 1)%Z eqn:H2; [lia|].
  destruct (r =? 1)%Z eqn:H3; [lia|]. destruct (c =? 1)%Z eqn:H4; [lia|]. done.
Qed.

(** add_subplots with a shape (r, c), both at least 2, installs a new
    figure and an r-by-c array of axis handles; every pair (i, j)
    with 0 <= i < r and 0 <= j < c addresses one of them. *)
Theorem add_subplots_two_dimensional_grid s r c f :
  (2 <= r)%Z -> (2 <= c)%Z -> fig s = Attr f ->
  exists s' rows,
    add_subplots [r; c] s = (s', Ok tt) /\
    fig s' = Attr (Some new_figure) /\
    axes s' = Some (AxArr2 (Z.to_nat c) rows) /\
    length rows = Z.to_nat r /\
    Forall (fun row => length row = Z.to_nat c) rows /\
    forall i j, (0 <= i < r)%Z -> (0 <= j < c)%Z ->
      exists a, subplot s' [i; j] = Some a.
Proof.
  intros Hr Hc Hf.
  eexists _, (replicate (Z.to_nat r) (replicate (Z.to_nat c) new_axes)).
  split.
  { eapply (add_subplots_installs s f [r; c]); [exact Hf|].
    intros s1. unfold lift. by rewrite plt_subplots_grid. }
  split; [done|]. split; [done|]. split; [apply length_replicate|].
  split; [apply Forall_replicate, length_replicate|].
  intros i j Hi Hj. exists new_axes. unfold subplot. cbn [axes set_axes].
  unfold axes_getitem. rewrite length_replicate.
  rewrite !py_index_nonneg by lia.
  rewrite lookup_replicate_2 by lia. simpl.
  by rewrite lookup_replicate_2 by lia.
Qed.

Lemma add_subplots_two_dimensional_grid_witness :
  exists s' rows,
    add_subplots [2; 3]%Z ex_bare = (s', Ok tt) /\
    fig s' = Attr (Some new_figure) /\
    axes s' = Some (AxArr2 (Z.to_nat 3) rows) /\
    length rows = Z.to_nat 2 /\
    Forall (fun row => length row = Z.to_nat 3) rows /\
    forall i j, (0 <= i < 2)%Z -> (0 <= j < 3)%Z ->
      exists a, subplot s' [i; j] = Some a.
Proof.
  apply (add_subplots_two_dimensional_grid ex_bare 2 3 None); [lia | lia | reflexivity].
Defined.

Lemma plt_subplots_squeezed r c :
  (1 <= r)%Z -> (1 <= c)%Z -> r = 1%Z \/ c = 1%Z ->
  plt_subplots r c =
  Ok (new_figure,
      if (r * c =? 1)%Z then AxObj new_axes
      else AxArr1 (replicate (Z.to_nat (r * c)) new_axes)).
Proof.
  intros Hr Hc Hone. unfold plt_subplots.
  destruct (r <? 1)%Z eqn:H1; [lia|]. destruct (c <? 1)%Z eqn:H2; [lia|]. simpl.
  destruct (r =? 1)%Z eqn:H3, (c =? 1)%Z eqn:H4; simpl.
  - apply Z.eqb_eq in H3, H4. by subst.
  - apply Z.eqb_eq in H3. subst r. rewrite Z.mul_1_l, H4. done.
  - apply Z.eqb_eq in H4. subst c. rewrite Z.mul_1_r, H3. done.
  - lia.
Qed.

(** add_subplots with a shape (r, c) that has a single row or a single
    column does not give a two-dimensional grid: the backend squeezes
    it to a one-dimensional array of r*c handles, or to a bare Axes
    object for (1, 1), so no pair (i, j) addresses a subplot. *)
Theorem add_subplots_single_row_or_column s r c f :
  (1 <= r)%Z -> (1 <= c)%Z -> r = 1%Z \/ c = 1%Z -> fig s = Attr f ->
  exists s',
    add_subplots [r; c] s = (s', Ok tt) /\
    (if (r * c =? 1)%Z then axes s' = Some (AxObj new_axes)
     else exists l, axes s' = Some (AxArr1 l) /\ length l = Z.to_nat (r * c)) /\
    forall i j, subplot s' [i; j] = None.
Proof.
  intros Hr Hc Hone Hf. eexists. split.
  { eapply (add_subplots_installs s f [r; c]); [exact Hf|].
    intros s1. unfold lift. by rewrite plt_subplots_squeezed. }
  split.
  - destruct (r * c =? 1)%Z; [done|]. eexists. split; [done|].
    apply length_replicate.
  - intros i j. unfold subplot. cbn [axes set_axes].
    by destruct (r * c =? 1)%Z.
Qed.

Lemma add_subplots_single_row_or_column_witness :
  exists s',
    add_subplots [1; 3]%Z ex_bare = (s', Ok tt) /\
    (if (1 * 3 =? 1)%Z then axes s' = Some (AxObj new_axes)
     else exists l, axes s' = Some (AxArr1 l) /\ length l = Z.to_nat (1 * 3)) /\
    forall i j, subplot s' [i; j] = None.
Proof.
  apply (add_subplots_single_row_or_column ex_bare 1 3 None);
    [lia | lia | by left | reflexivity].
Defined.

(** ** The shape of the grid *)

Lemma axes_call_shape meth f av idx av' :
  axes_call meth f av idx = Ok av' -> axes_shape av' = axes_shape av.
Proof.
  destruct av as [a|l|c rows]; simpl; [done| |].
  - destruct idx as [|i [|? ?]]; try done.
    destruct (py_index (length l) i); [|done]. intros [= <-]. simpl.
    by rewrite length_alter.
  - destruct idx as [|i [|j [|? ?]]]; try done.
    + by destruct (py_index (length rows) i).
    + destruct (py_index (length rows) i); [|done].
      destruct (py_index c j); [|done].
      destruct (_ ≫= _); [|done]. intros [= <-]. simpl.
      by rewrite length_alter.
Qed.

Lemma keeps_shape_ax_method c meth f idx :
  keeps (fun s => shape_of s = c) (ax_method meth f idx).
Proof.
  intros s Hs. unfold ax_method. destruct (axes s) as [av|] eqn:Hav; [|done].
  destruct (axes_call meth f av idx) as [av'|] eqn:Hc; [|done]. simpl.
  unfold shape_of in *. simpl. rewrite Hav in Hs. simpl in Hs.
  by rewrite (axes_call_shape _ _ _ _ _ Hc).
Qed.

Lemma keeps_shape_ensure c :
  keeps (fun s => shape_of s = Some c) ensure_figure /\
  keeps (fun s => shape_of s = Some c) ensure_axes.
Proof.
  split; intros s Hs.
  - unfold ensure_figure. by destruct (fig s) as [|[g|]].
  - unfold ensure_axes. destruct (axes s) eqn:Ha; [done|].
    unfold shape_of in Hs. by rewrite Ha in Hs.
Qed.

(** [plot] maintains whatever every Axes method maintains and the
    lazy creation of figure and axes maintains. *)
Lemma keeps_plot_ax E P field idx o :
  (forall meth f idx, keeps P (ax_method meth f idx)) ->
  keeps P ensure_figure -> keeps P ensure_axes ->
  ignores set_fig P -> ignores set_cbs P ->
  ignores set_xrng_attr P -> ignores set_yrng_attr P ->
  ignores set_time_rng P ->
  keeps P (plot E field idx o).
Proof.
  intros Hax Hef Hea Hf Hc Hx Hy Ht.
  assert (ax_stable P) as Hs by (intros meth f i _; apply Hax).
  unfold plot, plot_xlimit. keeps_tac.
  - by apply keeps_plot_draw.
  - by apply keeps_set_xrng.
  - by apply keeps_plot_yrange.
  - by apply keeps_plot_xformat.
  - by apply keeps_add_colorbar.
Qed.

(** Once a grid exists, no method but add_subplots changes its shape:
    whether they return or raise, day_night_background, set_xrng,
    set_yrng, add_colorbar and plot leave a grid of the same shape. *)
Theorem grid_shape_is_kept E s c :
  shape_of s = Some c ->
  (forall idx, shape_of (day_night_background E idx s).1 = Some c) /\
  (forall rng idx, shape_of (set_xrng rng idx s).1 = Some c) /\
  (forall rng idx, shape_of (set_yrng rng idx s).1 = Some c) /\
  (forall m t idx, shape_of (add_colorbar m t idx s).1 = Some c) /\
  (forall field idx o, shape_of (plot E field idx o s).1 = Some c).
Proof.
  intros Hs. set (P := fun s0 : Session => shape_of s0 = Some c).
  assert (forall meth f idx, keeps P (ax_method meth f idx)) as Hax
    by (intros; apply keeps_shape_ax_method).
  assert (ax_stable P) as Hst by (intros meth f i _; apply Hax).
  destruct (keeps_shape_ensure c) as [Hef Hea].
  repeat split; intros.
  - by apply (keeps_day_night_background E P).
  - apply (keeps_set_xrng P); [apply Hax | by intros ? ? ? | done].
  - apply (keeps_set_yrng P); [done | by intros ? ? ? | done].
  - apply (keeps_add_colorbar P); [by intros ? ? ?.. | done].
  - apply (keeps_plot_ax E P); try done; by intros ? ? ?.
Qed.

Lemma grid_shape_is_kept_witness :
  (forall idx, shape_of (day_night_background ex_collab idx ex_two).1
               = Some (Ok [2])) /\
  (forall rng idx, shape_of (set_xrng rng idx ex_two).1 = Some (Ok [2])) /\
  (forall rng idx, shape_of (set_yrng rng idx ex_two).1 = Some (Ok [2])) /\
  (forall m t idx, shape_of (add_colorbar m t idx ex_two).1 = Some (Ok [2])) /\
  (forall field idx o, shape_of (plot ex_collab field idx o ex_two).1
                       = Some (Ok [2])).
Proof. apply (grid_shape_is_kept ex_collab ex_two (Ok [2])). reflexivity. Defined.

(** ** What add_subplots leaves behind *)

(** add_subplots, whether it returns or raises, never resets the two
    range stores, the list of colorbars or the time range: a grid that
    replaces an earlier one inherits them as they are. *)
Theorem add_subplots_keeps_stores shape s :
  xrng (add_subplots shape s).1 = xrng s /\
  yrng (add_subplots shape s).1 = yrng s /\
  cbs (add_subplots shape s).1 = cbs s /\
  time_rng (add_subplots shape s).1 = time_rng s.
Proof.
  set (P := fun s0 : Session =>
              xrng s0 = xrng s /\ yrng s0 = yrng s /\
              cbs s0 = cbs s /\ time_rng s0 = time_rng s).
  apply (keeps_add_subplots P shape); [by intros ? ? ?..|by unfold P].
Qed.

Lemma self_axes_getitem_ok idx s s' it :
  self_axes_getitem idx s = (s', Ok it) ->
  s' = s /\ exists av, axes s = Some av /\ axes_getitem av idx = Ok it.
Proof.
  unfold self_axes_getitem. destruct (axes s) as [av|]; [|done].
  intros [= <- H]. eauto.
Qed.

(** When the drawing part of plot returns, the session had a fig
    attribute and the subplot index addresses the grid, the one that
    existed or the single axis created for the occasion. *)
Lemma plot_draw_reaches E field idx o s s1 drawn :
  plot_draw E field idx o s = (s1, Ok drawn) ->
  fig s <> Absent /\
  exists it,
    axes_getitem (match axes s with
                  | Some av => av
                  | None => AxArr1 [new_axes]
                  end) idx = Ok it.
Proof.
  unfold plot_draw. intros H.
  apply bind_ok in H as (s0 & d & Hd & H). injection Hd as <- <-.
  apply bind_ok in H as (s0 & inp & Hinp & H).
  apply lift_ok in Hinp as [-> _].
  destruct inp as [[[[data xdata] ydata] units] ytitle].
  apply bind_ok in H as (s2 & [] & Hef & H).
  apply bind_ok in H as (s3 & [] & Hea & H).
  apply bind_ok in H as (s4 & it & Hit & _).
  apply self_axes_getitem_ok in Hit as [-> (av & Hav & Hit)].
  unfold ensure_figure in Hef. unfold ensure_axes in Hea.
  split.
  - by destruct (fig s).
  - exists it.
    assert (axes s2 = axes s) as Ha2
      by (destruct (fig s) as [|[g|]]; by simplify_eq).
    rewrite Ha2 in Hea.
    destruct (axes s) as [av0|]; simplify_eq; simpl in Hav; by simplify_eq.
Qed.

Lemma set_yrng_ok rng idx s s' :
  set_yrng rng idx s = (s', Ok tt) ->
  exists av av' st0 st',
    axes s = Some av /\
    match yrng s with
    | Attr st => st0 = st
    | Absent => match av with
                | AxObj _ => False
                | AxArr1 l => st0 = np_zeros1 (length l)
                | AxArr2 c rows => st0 = np_zeros2 (length rows) c
                end
    end /\
    axes_call "set_ylim" (ax_set_ylim rng) av idx = Ok av' /\
    store_assign st0 idx rng = Ok st' /\
    s' = set_yrng_attr (Attr st') (set_axes (Some av') s).
Proof.
  unfold set_yrng. intros H.
  apply bind_ok in H as (s0 & av & Hreq & H).
  unfold require_axes in Hreq. destruct (axes s) as [av0|] eqn:Hav; [|done].
  injection Hreq as <- <-.
  apply bind_ok in H as (s0 & x & Hx & H). injection Hx as <- <-.
  apply bind_ok in H as (s1 & [] & Halloc & H).
  apply bind_ok in H as (s2 & [] & Hm & H).
  apply bind_ok in H as (s3 & st0 & Hget & H).
  apply bind_ok in H as (s4 & st' & Hassign & H).
  apply lift_ok in Hassign as [-> Hassign].
  unfold getattr in Hget. destruct (yrng s2) as [|stx] eqn:Hx2; [done|].
  injection Hget as <- <-. injection H as <-.
  apply ax_method_ok in Hm as (av1 & av' & Hav1 & Hcall & ->).
  simpl in Hx2.
  exists av0, av', stx, st'.
  destruct (yrng s) as [|st] eqn:Hxs.
  - apply bind_ok in Halloc as (s0 & shape & Hshape & Halloc).
    apply lift_ok in Hshape as [-> Hshape].
    destruct av0 as [a|l|c rows]; simpl in Hshape; [done| |].
    + injection Hshape as <-. injection Halloc as <-. simpl in *.
      injection Hx2 as <-. rewrite Hav in Hav1. injection Hav1 as <-.
      by repeat split.
    + injection Hshape as <-. injection Halloc as <-. simpl in *.
      injection Hx2 as <-. rewrite Hav in Hav1. injection Hav1 as <-.
      by repeat split.
  - injection Halloc as <-. rewrite Hxs in Hx2. injection Hx2 as <-.
    rewrite Hav in Hav1. injection Hav1 as <-. by repeat split.
Qed.

(** With a bare Axes object in self.axes, which is what a shape (1, 1)
    leaves there, no method that addresses a subplot returns: neither
    the two range setters, nor add_colorbar, nor
    day_night_background, nor plot. *)
Theorem bare_axes_object_is_unusable E s a :
  axes s = Some (AxObj a) ->
  (forall rng idx s', set_xrng rng idx s <> (s', Ok tt)) /\
  (forall rng idx s', set_yrng rng idx s <> (s', Ok tt)) /\
  (forall m t idx s' cb, add_colorbar m t idx s <> (s', Ok cb)) /\
  (forall idx s', day_night_background E idx s <> (s', Ok tt)) /\
  (forall field idx o s', plot E field idx o s <> (s', Ok tt)).
Proof.
  intros Ha. repeat split.
  - intros rng idx s' H.
    apply set_xrng_ok in H as (av & av' & _ & _ & Hav & _ & Hc & _).
    rewrite Ha in Hav. by injection Hav as <-.
  - intros rng idx s' H.
    apply set_yrng_ok in H as (av & av' & _ & _ & Hav & _ & Hc & _).
    rewrite Ha in Hav. by injection Hav as <-.
  - intros m t idx s' cb H. unfold add_colorbar in H.
    apply bind_ok in H as (s1 & av & Hreq & H).
    assert (s1 = s) as -> by (unfold require_axes in Hreq; by destruct (axes s); simplify_eq).
    apply bind_ok in H as (s1 & g & Hg & H).
    assert (s1 = s) as -> by (unfold getattr in Hg; by destruct (fig s); simplify_eq).
    apply bind_ok in H as (s1 & it & Hit & _).
    apply self_axes_getitem_ok in Hit as [_ (av0 & Hav & Hit)].
    rewrite Ha in Hav. by injection Hav as <-.
  - intros idx s' H. unfold day_night_background in H.
    apply bind_ok in H as (s0 & d & Hd & H). injection Hd as <- <-.
    apply bind_ok in H as (s0 & span & Hsp & H).
    apply lift_ok in Hsp as [-> _].
    apply bind_ok in H as (s1 & av & Hreq & H).
    assert (s1 = s) as -> by (unfold require_axes in Hreq; by destruct (axes s); simplify_eq).
    apply bind_ok in H as (s1 & it & Hit & _).
    apply self_axes_getitem_ok in Hit as [_ (av0 & Hav & Hit)].
    rewrite Ha in Hav. by injection Hav as <-.
  - intros field idx o s' H. unfold plot in H.
    apply bind_ok in H as (s1 & drawn & Hd & _).
    apply plot_draw_reaches in Hd as [_ [it Hit]]. by rewrite Ha in Hit.
Qed.

Lemma bare_axes_object_is_unusable_witness :
  (forall rng idx s', set_xrng rng idx (add_subplots [1; 1]%Z ex_bare).1
                      <> (s', Ok tt)) /\
  (forall rng idx s', set_yrng rng idx (add_subplots [1; 1]%Z ex_bare).1
                      <> (s', Ok tt)) /\
  (forall m t idx s' cb, add_colorbar m t idx (add_subplots [1; 1]%Z ex_bare).1
                         <> (s', Ok cb)) /\
  (forall idx s', day_night_background ex_collab idx
                    (add_subplots [1; 1]%Z ex_bare).1 <> (s', Ok tt)) /\
  (forall field idx o s', plot ex_collab field idx o
                            (add_subplots [1; 1]%Z ex_bare).1 <> (s', Ok tt)).
Proof.
  apply (bare_axes_object_is_unusable ex_collab _ new_axes). reflexivity.
Defined.


Lemma add_subplots_without_fig shape s :
  fig s = Absent -> add_subplots shape s = (s, Raise (AttributeError "fig")).
Proof.
  intros Hf. unfold add_subplots. apply bind_raise_eq.
  unfold getattr. by rewrite Hf.
Qed.

Lemma add_subplots_invalid_state s g shape :
  fig s = Attr (Some g) -> length shape <> 1 -> length shape <> 2 ->
  (add_subplots shape s).1 = set_fig Absent s.
Proof.
  intros Hf H1 H2. unfold add_subplots.
  rewrite (bind_ret_eq _ _ s s (Some g)) by (unfold getattr; by rewrite Hf).
  rewrite (bind_ret_eq _ _ s (set_fig Absent s) tt) by done.
  destruct shape as [|a [|b [|c rest]]]; simpl in *; done.
Qed.

(** When add_subplots raises on an invalid shape in a session that
    held a figure, the fig attribute has been deleted and stays so:
    every further add_subplots call, whatever its shape, raises
    AttributeError and changes nothing, and no plot call returns. *)
Theorem invalid_shape_breaks_the_session E s g shape :
  fig s = Attr (Some g) -> length shape <> 1 -> length shape <> 2 ->
  fig (add_subplots shape s).1 = Absent /\
  (forall shape2,
     add_subplots shape2 (add_subplots shape s).1
     = ((add_subplots shape s).1, Raise (AttributeError "fig"))) /\
  (forall field idx o s',
     plot E field idx o (add_subplots shape s).1 <> (s', Ok tt)).
Proof.
  intros Hf H1 H2.
  rewrite (add_subplots_invalid_state s g shape Hf H1 H2).
  split; [done|]. split.
  - intros shape2. by apply add_subplots_without_fig.
  - intros field idx o s' H. unfold plot in H.
    apply bind_ok in H as (s1 & drawn & Hd & _).
    by apply plot_draw_reaches in Hd as [Hfig _].
Qed.

Lemma invalid_shape_breaks_the_session_witness :
  fig (add_subplots [1; 2; 3]%Z ex_two).1 = Absent /\
  (forall shape2,
     add_subplots shape2 (add_subplots [1; 2; 3]%Z ex_two).1
     = ((add_subplots [1; 2; 3]%Z ex_two).1, Raise (AttributeError "fig"))) /\
  (forall field idx o s',
     plot ex_collab field idx o (add_subplots [1; 2; 3]%Z ex_two).1
     <> (s', Ok tt)).
Proof.
  apply (invalid_shape_breaks_the_session ex_collab ex_two new_figure [1; 2; 3]%Z);
    [reflexivity | simpl; lia | simpl; lia].
Defined.

(** ** The colorbar list *)

Lemma add_colorbar_ok m t idx s s' cb :
  add_colorbar m t idx s = (s', Ok cb) ->
  exists a g,
    subplot s idx = Some a /\ fig s = Attr (Some g) /\
    cb = mkColorbar m t idx /\
    s' = set_cbs (cbs s ++ [cb])
           (set_fig (Attr (Some (mkFigure (added_axes g ++ [idx])))) s).
Proof.
  unfold add_colorbar. intros H.
  apply bind_ok in H as (s1 & av & Hreq & H).
  unfold require_axes in Hreq. destruct (axes s) as [av0|] eqn:Hav; [|done].
  injection Hreq as <- <-.
  apply bind_ok in H as (s1 & f & Hg & H).
  unfold getattr in Hg. destruct (fig s) as [|f0] eqn:Hf; [done|].
  injection Hg as <- <-.
  apply bind_ok in H as (s1 & it & Hit & H).
  apply self_axes_getitem_ok in Hit as [-> (av & Hav' & Hit)].
  rewrite Hav in Hav'. injection Hav' as <-.
  destruct it as [a|]; [|done].
  apply bind_ok in H as (s1 & [] & Hadd & H).
  unfold fig_add_axes in Hadd.
  apply bind_ok in Hadd as (s2 & f1 & Hg & Hadd).
  unfold getattr in Hg. rewrite Hf in Hg. injection Hg as <- <-.
  destruct f0 as [g|]; [|done]. injection Hadd as <-.
  apply bind_ok in H as (s1 & c & Hc & H). injection Hc as <- <-.
  apply bind_ok in H as (s1 & [] & Hm & H). injection Hm as <-.
  injection H as <- <-.
  exists a, g. unfold subplot. rewrite Hav, Hit. by repeat split.
Qed.




(** ** The range setters, step by step *)

Lemma set_xrng_run rng idx s av av' st0 :
  axes s = Some av -> alloc_store av (xrng s) = Ok st0 ->
  axes_call "set_xlim" (ax_set_xlim rng) av idx = Ok av' ->
  set_xrng rng idx s =
  match store_assign st0 idx (to_day rng.1, to_day rng.2) with
  | Ok st' => (set_xrng_attr (Attr st') (set_axes (Some av') s), Ok tt)
  | Raise e => (set_axes (Some av') (set_xrng_attr (Attr st0) s), Raise e)
  end.
Proof.
  intros Hav Halloc Hcall. unfold set_xrng.
  rewrite (bind_ret_eq _ _ s s av) by (unfold require_axes; by rewrite Hav).
  rewrite (bind_ret_eq _ _ s s (xrng s)) by done.
  rewrite (bind_ret_eq _ _ s (set_xrng_attr (Attr st0) s) tt).
  2:{ unfold alloc_store in Halloc. destruct (xrng s) as [|st] eqn:Hx.
      - destruct av as [a|l|c rows]; [done| |]; injection Halloc as <-; done.
      - injection Halloc as <-. unfold ret. f_equal.
        destruct s; simpl in *; by subst. }
  rewrite (bind_ret_eq _ _ _ (set_axes (Some av') (set_xrng_attr (Attr st0) s)) tt).
  2:{ unfold ax_method. simpl. by rewrite Hav, Hcall. }
  rewrite (bind_ret_eq _ _ _ (set_axes (Some av') (set_xrng_attr (Attr st0) s)) st0)
    by done.
  unfold bind, lift. by destruct (store_assign _ _ _).
Qed.

Lemma set_yrng_run rng idx s av av' st0 :
  axes s = Some av -> alloc_store av (yrng s) = Ok st0 ->
  axes_call "set_ylim" (ax_set_ylim rng) av idx = Ok av' ->
  set_yrng rng idx s =
  match store_assign st0 idx rng with
  | Ok st' => (set_yrng_attr (Attr st') (set_axes (Some av') s), Ok tt)
  | Raise e => (set_axes (Some av') (set_yrng_attr (Attr st0) s), Raise e)
  end.
Proof.
  intros Hav Halloc Hcall. unfold set_yrng.
  rewrite (bind_ret_eq _ _ s s av) by (unfold require_axes; by rewrite Hav).
  rewrite (bind_ret_eq _ _ s s (yrng s)) by done.
  rewrite (bind_ret_eq _ _ s (set_yrng_attr (Attr st0) s) tt).
  2:{ unfold alloc_store in Halloc. destruct (yrng s) as [|st] eqn:Hx.
      - destruct av as [a|l|c rows]; [done| |]; injection Halloc as <-; done.
      - injection Halloc as <-. unfold ret. f_equal.
        destruct s; simpl in *; by subst. }
  rewrite (bind_ret_eq _ _ _ (set_axes (Some av') (set_yrng_attr (Attr st0) s)) tt).
  2:{ unfold ax_method. simpl. by rewrite Hav, Hcall. }
  rewrite (bind_ret_eq _ _ _ (set_axes (Some av') (set_yrng_attr (Attr st0) s)) st0)
    by done.
  unfold bind, lift. by destruct (store_assign _ _ _).
Qed.

Lemma res_mapM_singleton {A B} (f : A -> res B) a b :
  f a = Ok b -> res_mapM f [a] = Ok [b].
Proof. intros H. simpl. by rewrite H. Qed.



(** The first set_yrng on a one-dimensional grid of n subplots
    allocates a store of n rows, zero everywhere but in the row of the
    addressed subplot, where the range is recorded as given; the axis
    gets the same range, and no other subplot and no other attribute
    changes. *)
Theorem set_yrng_first_use s l rng i k :
  axes s = Some (AxArr1 l) -> py_index (length l) i = Ok k ->
  yrng s = Absent ->
  exists s',
    set_yrng rng [i] s = (s', Ok tt) /\
    yrng s' = Attr (St1 (<[k := rng]> (replicate (length l) (0, 0)%Z))) /\
    axes s' = Some (AxArr1 (alter (ax_set_ylim rng) k l)) /\
    xrng s' = xrng s /\ time_rng s' = time_rng s /\
    cbs s' = cbs s /\ fig s' = fig s.
Proof.
  intros Hav Hk Hx.
  rewrite (set_yrng_run rng [i] s (AxArr1 l) (AxArr1 (alter (ax_set_ylim rng) k l))
             (np_zeros1 (length l)) Hav).
  - unfold store_assign, np_zeros1. simpl. rewrite length_replicate, Hk.
    eexists. split; [reflexivity|]. by repeat split.
  - by rewrite Hx.
  - simpl. by rewrite Hk.
Qed.

Lemma set_yrng_first_use_witness :
  exists s',
    set_yrng (-5, 40)%Z [0]%Z ex_two = (s', Ok tt) /\
    yrng s' = Attr (St1 (<[0 := (-5, 40)%Z]>
                           (replicate (length [new_axes; new_axes]) (0, 0)%Z))) /\
    axes s' = Some (AxArr1 (alter (ax_set_ylim (-5, 40)%Z) 0
                              [new_axes; new_axes])) /\
    xrng s' = xrng ex_two /\ time_rng s' = time_rng ex_two /\
    cbs s' = cbs ex_two /\ fig s' = fig ex_two.
Proof.
  apply (set_yrng_first_use ex_two [new_axes; new_axes] (-5, 40)%Z 0 0);
    reflexivity.
Defined.

(** ** Stores of two-dimensional grids, and stores that do not fit *)

Lemma py_index_error n i e : py_index n i = Raise e -> e = IndexError.
Proof. unfold py_index. repeat case_match; by intros [= <-]. Qed.

Lemma res_mapM_py_index_refuses n idx i :
  i ∈ idx -> py_index n i = Raise IndexError ->
  res_mapM (py_index n) idx = Raise IndexError.
Proof.
  induction idx as [|x idx IH]; intros Hin Hi; [by apply elem_of_nil in Hin|].
  simpl. destruct (py_index n x) as [k|e] eqn:Hx.
  - apply elem_of_cons in Hin as [->|Hin]; [by rewrite Hi in Hx|].
    by rewrite (IH Hin Hi).
  - by rewrite (py_index_error _ _ _ Hx).
Qed.

Lemma subplot_axes_call meth f s idx a :
  subplot s idx = Some a ->
  exists av av',
    axes s = Some av /\ axes_call meth f av idx = Ok av' /\
    axes_getitem av' idx = Ok (ItAxes (f a)).
Proof.
  unfold subplot. destruct (axes s) as [av|]; [|done].
  destruct (axes_getitem av idx) as [[a0|]|] eqn:Hg; try done. intros [= ->].
  destruct (axes_call_total meth f av idx a Hg) as [av' Hc].
  exists av, av'. split; [done|]. split; [done|].
  destruct (axes_call_at _ _ _ _ _ Hc) as (a1 & H1 & H2).
  rewrite Hg in H1. by injection H1 as <-.
Qed.

(** When an entry of the subplot index is not a valid row number of
    the x-range store, set_xrng raises IndexError although the subplot
    exists: the limits have then been applied to the axis and the
    store exists, but nothing is recorded in it. This is the case for
    a column number beyond the number of rows of a 2-D grid, and for a
    store left behind by an earlier, smaller grid. *)
Theorem set_xrng_refused_by_store s av idx a rng i st0 :
  axes s = Some av -> subplot s idx = Some a -> i ∈ idx ->
  alloc_store av (xrng s) = Ok st0 ->
  py_index (store_nrows st0) i = Raise IndexError ->
  exists s',
    set_xrng rng idx s = (s', Raise IndexError) /\
    subplot s' idx = Some (ax_set_xlim rng a) /\
    xrng s' = Attr st0.
Proof.
  intros Hav Ha Hin Halloc Hi.
  destruct (subplot_axes_call "set_xlim" (ax_set_xlim rng) s idx a Ha)
    as (av0 & av' & Hav0 & Hcall & Hget).
  rewrite Hav in Hav0. injection Hav0 as <-.
  rewrite (set_xrng_run rng idx s av av' st0 Hav Halloc Hcall).
  unfold store_assign. destruct idx as [|x idx]; [by apply elem_of_nil in Hin|].
  rewrite (res_mapM_py_index_refuses _ _ i Hin Hi).
  eexists. split; [reflexivity|]. split; [|done].
  unfold subplot. simpl. by rewrite Hget.
Qed.

Lemma set_xrng_refused_by_store_witness :
  exists s',
    set_xrng (t_at 1, t_at 23) [0; 2]%Z ex_grid = (s', Raise IndexError) /\
    subplot s' [0; 2]%Z = Some (ax_set_xlim (t_at 1, t_at 23) new_axes) /\
    xrng s' = Attr (np_zeros2 2 3).
Proof.
  apply (set_xrng_refused_by_store ex_grid
           (AxArr2 3 (replicate 2 (replicate 3 new_axes))) [0; 2]%Z new_axes
           (t_at 1, t_at 23) 2 (np_zeros2 2 3));
    [reflexivity | reflexivity | | reflexivity | reflexivity].
  apply elem_of_cons. right. apply elem_of_cons. by left.
Defined.

(** The same for set_yrng and the y-range store: an index entry that
    is not a valid row number of the store makes it raise IndexError
    after the limits have been applied, with nothing recorded. *)
Theorem set_yrng_refused_by_store s av idx a rng i st0 :
  axes s = Some av -> subplot s idx = Some a -> i ∈ idx ->
  alloc_store av (yrng s) = Ok st0 ->
  py_index (store_nrows st0) i = Raise IndexError ->
  exists s',
    set_yrng rng idx s = (s', Raise IndexError) /\
    subplot s' idx = Some (ax_set_ylim rng a) /\
    yrng s' = Attr st0.
Proof.
  intros Hav Ha Hin Halloc Hi.
  destruct (subplot_axes_call "set_ylim" (ax_set_ylim rng) s idx a Ha)
    as (av0 & av' & Hav0 & Hcall & Hget).
  rewrite Hav in Hav0. injection Hav0 as <-.
  rewrite (set_yrng_run rng idx s av av' st0 Hav Halloc Hcall).
  unfold store_assign. destruct idx as [|x idx]; [by apply elem_of_nil in Hin|].
  rewrite (res_mapM_py_index_refuses _ _ i Hin Hi).
  eexists. split; [reflexivity|]. split; [|done].
  unfold subplot. simpl. by rewrite Hget.
Qed.

Lemma set_yrng_refused_by_store_witness :
  exists s',
    set_yrng (-5, 40)%Z [0; 2]%Z ex_grid = (s', Raise IndexError) /\
    subplot s' [0; 2]%Z = Some (ax_set_ylim (-5, 40)%Z new_axes) /\
    yrng s' = Attr (np_zeros2 2 3).
Proof.
  apply (set_yrng_refused_by_store ex_grid
           (AxArr2 3 (replicate 2 (replicate 3 new_axes))) [0; 2]%Z new_axes
           (-5, 40)%Z 2 (np_zeros2 2 3));
    [reflexivity | reflexivity | | reflexivity | reflexivity].
  apply elem_of_cons. right. apply elem_of_cons. by left.
Defined.

Lemma alloc_store_fits av cur st0 :
  alloc_store av cur = Ok st0 ->
  match cur with Attr st => store_fits av st | Absent => True end ->
  store_fits av st0.
Proof.
  unfold alloc_store. destruct cur as [|st].
  - destruct av as [a|l|c rows]; [done| |]; intros [= <-] _; simpl.
    + apply length_replicate.
    + split; [apply length_replicate|]. apply Forall_replicate, length_replicate.
  - by intros [= <-].
Qed.

Lemma store_cell_of_row rows i v c m :
  store_row_is (St2 rows) i v -> Forall (fun r => length r = c) rows ->
  (0 <= m < Z.of_nat c)%Z ->
  store_cell (St2 rows) [i; m] = Ok v.
Proof.
  intros (r & Hr & Hall) HF Hm. simpl. rewrite Hr.
  assert (length r = c) as Hrc.
  { apply py_getitem_Ok in Hr as (k & _ & Hk).
    by apply (Forall_lookup_1 _ _ _ _ HF Hk). }
  pose proof (py_index_nonneg (length r) m ltac:(lia)) as Hidx.
  destruct (py_getitem_index r m _ Hidx) as (p & Hp & _).
  pose proof (py_getitem_filled _ _ _ _ Hall Hp) as ->. done.
Qed.

(** After a successful set_yrng(yrng, idx) the y-range store exists,
    every row named by idx holds yrng as given, the axis of the
    subplot has yrng as its y-limits, and the x-range store and the
    time range are untouched. *)
Theorem set_yrng_records rng idx s s' :
  set_yrng rng idx s = (s', Ok tt) ->
  exists st a,
    yrng s' = Attr st /\
    (forall i, i ∈ idx -> store_row_is st i rng) /\
    subplot s' idx = Some a /\ ylim a = Some rng /\
    xrng s' = xrng s /\ time_rng s' = time_rng s /\ cbs s' = cbs s.
Proof.
  intros (av & av' & st0 & st' & Hav & _ & Hcall & Hassign & ->)%set_yrng_ok.
  destruct (axes_call_at _ _ _ _ _ Hcall) as (a & _ & Ha').
  exists st', (ax_set_ylim rng a). split; [done|].
  split; [by apply (store_assign_rows _ _ _ _ Hassign)|].
  split; [|done]. unfold subplot. simpl. by rewrite Ha'.
Qed.

Lemma set_yrng_records_witness :
  exists st a,
    yrng (set_yrng (-5, 40)%Z [1]%Z ex_two).1 = Attr st /\
    (forall i, i ∈ [1]%Z -> store_row_is st i (-5, 40)%Z) /\
    subplot (set_yrng (-5, 40)%Z [1]%Z ex_two).1 [1]%Z = Some a /\
    ylim a = Some (-5, 40)%Z /\
    xrng (set_yrng (-5, 40)%Z [1]%Z ex_two).1 = xrng ex_two /\
    time_rng (set_yrng (-5, 40)%Z [1]%Z ex_two).1 = time_rng ex_two /\
    cbs (set_yrng (-5, 40)%Z [1]%Z ex_two).1 = cbs ex_two.
Proof.
  apply (set_yrng_records (-5, 40)%Z [1]%Z ex_two). vm_compute. reflexivity.
Defined.

(** On a two-dimensional grid whose y-range store fits it, a range set
    for subplot (i, j) is recorded for every subplot of row i and of
    row j: the index pair is used as a list of row numbers of the
    store. *)
Theorem set_yrng_fills_whole_rows s c rows rng i j s' :
  axes s = Some (AxArr2 c rows) ->
  match yrng s with
  | Attr st => store_fits (AxArr2 c rows) st
  | Absent => True
  end ->
  set_yrng rng [i; j] s = (s', Ok tt) ->
  exists st,
    yrng s' = Attr st /\
    forall m, (0 <= m < Z.of_nat c)%Z ->
      store_cell st [i; m] = Ok rng /\ store_cell st [j; m] = Ok rng.
Proof.
  intros Hav Hfits H.
  apply set_yrng_ok in H as (av & av' & st0 & st' & Hav' & Hst0 & _ & Hassign & ->).
  rewrite Hav in Hav'. injection Hav' as <-.
  assert (store_fits (AxArr2 c rows) st0) as Hf0.
  { apply (alloc_store_fits _ (yrng s)); [|done]. unfold alloc_store.
    destruct (yrng s); by subst. }
  pose proof (store_assign_fits _ _ _ _ _ Hf0 Hassign) as Hf'.
  pose proof (store_assign_rows _ _ _ _ Hassign) as Hrows.
  exists st'. split; [done|]. intros m Hm.
  destruct st' as [rs|rs]; [done|]. destruct Hf' as [_ HF].
  split; apply (store_cell_of_row _ _ _ c); try done; apply Hrows.
  - by left.
  - right. by left.
Qed.

Lemma set_yrng_fills_whole_rows_witness :
  exists st,
    yrng (set_yrng (-5, 40)%Z [0; 1]%Z ex_grid).1 = Attr st /\
    forall m, (0 <= m < Z.of_nat 3)%Z ->
      store_cell st [0; m]%Z = Ok (-5, 40)%Z /\
      store_cell st [1; m]%Z = Ok (-5, 40)%Z.
Proof.
  apply (set_yrng_fills_whole_rows ex_grid 3 (replicate 2 (replicate 3 new_axes))
           (-5, 40)%Z 0 1); [reflexivity | exact I |].
  vm_compute. reflexivity.
Defined.

(** ** Subplot indices *)

Lemma subplot_index_length s idx a shp :
  subplot s idx = Some a -> shape_of s = Some (Ok shp) ->
  length idx = length shp.
Proof.
  unfold subplot, shape_of. destruct (axes s) as [av|]; [|done]. simpl.
  destruct av as [a0|l|c rows]; simpl; [done| |].
  - destruct idx as [|i [|? ?]]; try done. by intros _ [= <-].
  - destruct idx as [|i [|j [|? ?]]]; try done.
    + by destruct (py_index (length rows) i).
    + by intros _ [= <-].
Qed.

Lemma ax_method_needs_subplot meth f idx s s' :
  ax_method meth f idx s = (s', Ok tt) -> exists a, subplot s idx = Some a.
Proof. intros (a & Ha & _)%ax_method_subplot. eauto. Qed.

Lemma set_xrng_needs_subplot rng idx s s' :
  set_xrng rng idx s = (s', Ok tt) -> exists a, subplot s idx = Some a.
Proof.
  intros (av & av' & _ & _ & Hav & _ & Hc & _)%set_xrng_ok.
  destruct (axes_call_at _ _ _ _ _ Hc) as (a & Ha & _).
  exists a. unfold subplot. by rewrite Hav, Ha.
Qed.

Lemma set_yrng_needs_subplot rng idx s s' :
  set_yrng rng idx s = (s', Ok tt) -> exists a, subplot s idx = Some a.
Proof.
  intros (av & av' & _ & _ & Hav & _ & Hc & _)%set_yrng_ok.
  destruct (axes_call_at _ _ _ _ _ Hc) as (a & Ha & _).
  exists a. unfold subplot. by rewrite Hav, Ha.
Qed.

Lemma add_colorbar_needs_subplot m t idx s s' cb :
  add_colorbar m t idx s = (s', Ok cb) ->
  (exists a, subplot s idx = Some a) /\ axes s' = axes s.
Proof.
  unfold add_colorbar. intros H.
  apply bind_ok in H as (s1 & av & Hreq & H).
  assert (s1 = s) as ->
    by (unfold require_axes in Hreq; by destruct (axes s); simplify_eq).
  apply bind_ok in H as (s1 & f & Hg & H).
  assert (s1 = s) as ->
    by (unfold getattr in Hg; by destruct (fig s); simplify_eq).
  apply bind_ok in H as (s1 & it & Hit & H).
  apply self_axes_getitem_ok in Hit as [-> (av0 & Hav & Hit)].
  destruct it as [a|]; [|done]. split.
  - exists a. unfold subplot. by rewrite Hav, Hit.
  - set (P := fun s0 : Session => axes s0 = axes s).
    assert (keeps P (add_colorbar m t idx)) as Hk
      by (apply keeps_add_colorbar; by intros ? ? ?).
    specialize (Hk s eq_refl). unfold add_colorbar in Hk.
    rewrite (bind_ret_eq _ _ s s av) in Hk by done.
    rewrite (bind_ret_eq _ _ s s f) in Hk by done.
    rewrite (bind_ret_eq _ _ s s (ItAxes a)) in Hk
      by (unfold self_axes_getitem; by rewrite Hav, Hit).
    by rewrite H in Hk.
Qed.

Lemma day_night_background_needs_subplot E idx s s' :
  day_night_background E idx s = (s', Ok tt) -> exists a, subplot s idx = Some a.
Proof.
  unfold day_night_background. intros H.
  apply bind_ok in H as (s0 & d & Hd & H). injection Hd as <- <-.
  apply bind_ok in H as (s0 & span & Hsp & H).
  apply lift_ok in Hsp as [-> _].
  apply bind_ok in H as (s1 & av & Hreq & H).
  assert (s1 = s) as ->
    by (unfold require_axes in Hreq; by destruct (axes s); simplify_eq).
  apply bind_ok in H as (s1 & it & Hit & H).
  apply self_axes_getitem_ok in Hit as [-> _].
  apply bind_ok in H as (s1 & [] & Hm & _).
  by apply ax_method_needs_subplot in Hm.
Qed.

(** A plot call that returns leaves the subplot it was given in
    place. *)
Lemma plot_ends_on_subplot E field idx o s s' :
  plot E field idx o s = (s', Ok tt) -> exists a, subplot s' idx = Some a.
Proof.
  unfold plot. intros H.
  apply bind_ok in H as (s1 & drawn & _ & H).
  apply bind_ok in H as (s2 & [] & _ & H).
  apply bind_ok in H as (s3 & [] & _ & H).
  apply bind_ok in H as (s4 & [] & Hfmt & H).
  unfold plot_xformat in Hfmt.
  apply bind_ok in Hfmt as (s5 & st & _ & Hfmt).
  apply bind_ok in Hfmt as (s6 & days & _ & Hfmt).
  apply bind_ok in Hfmt as (s7 & fmt & _ & Hfmt).
  apply ax_method_subplot in Hfmt as (a & _ & Ha).
  destruct (drawn_mesh drawn) as [mesh|]; [|injection H as <-; eauto].
  apply bind_ok in H as (s8 & cb & Hcb & H). injection H as <-.
  apply add_colorbar_needs_subplot in Hcb as [_ Hax].
  eexists. unfold subplot in *. rewrite Hax. exact Ha.
Qed.

Lemma plot_keeps_shape E field idx o s c :
  shape_of s = Some c -> shape_of (plot E field idx o s).1 = Some c.
Proof.
  intros Hs. destruct (keeps_shape_ensure c) as [Hef Hea].
  apply (keeps_plot_ax E (fun s0 => shape_of s0 = Some c)); try done;
    try (by intros ? ? ?).
  intros. apply keeps_shape_ax_method.
Qed.

(** A subplot index must have one entry per dimension of the grid:
    with any other length, none of set_xrng, set_yrng, add_colorbar,
    day_night_background and plot returns. *)
Theorem index_length_must_match E s shp idx :
  shape_of s = Some (Ok shp) -> length idx <> length shp ->
  (forall rng s', set_xrng rng idx s <> (s', Ok tt)) /\
  (forall rng s', set_yrng rng idx s <> (s', Ok tt)) /\
  (forall m t s' cb, add_colorbar m t idx s <> (s', Ok cb)) /\
  (forall s', day_night_background E idx s <> (s', Ok tt)) /\
  (forall field o s', plot E field idx o s <> (s', Ok tt)).
Proof.
  intros Hs Hlen. repeat split.
  - intros rng s' [a Ha]%set_xrng_needs_subplot.
    by apply Hlen, (subplot_index_length s idx a).
  - intros rng s' [a Ha]%set_yrng_needs_subplot.
    by apply Hlen, (subplot_index_length s idx a).
  - intros m t s' cb [[a Ha] _]%add_colorbar_needs_subplot.
    by apply Hlen, (subplot_index_length s idx a).
  - intros s' [a Ha]%day_night_background_needs_subplot.
    by apply Hlen, (subplot_index_length s idx a).
  - intros field o s' H.
    pose proof (plot_keeps_shape E field idx o s _ Hs) as Hs'.
    rewrite H in Hs'. simpl in Hs'.
    apply plot_ends_on_subplot in H as [a Ha].
    by apply Hlen, (subplot_index_length s' idx a).
Qed.

Lemma index_length_must_match_witness :
  (forall rng s', set_xrng rng [0; 0]%Z ex_two <> (s', Ok tt)) /\
  (forall rng s', set_yrng rng [0; 0]%Z ex_two <> (s', Ok tt)) /\
  (forall m t s' cb, add_colorbar m t [0; 0]%Z ex_two <> (s', Ok cb)) /\
  (forall s', day_night_background ex_collab [0; 0]%Z ex_two <> (s', Ok tt)) /\
  (forall field o s', plot ex_collab field [0; 0]%Z o ex_two <> (s', Ok tt)).
Proof.
  apply (index_length_must_match ex_collab ex_two [2] [0; 0]%Z);
    [reflexivity | simpl; lia].
Defined.

Lemma py_index_one i k : py_index 1 i = Ok k -> i = 0%Z \/ i = (-1)%Z.
Proof.
  unfold py_index.
  destruct (Z.leb_spec 0 i), (Z.ltb_spec i (Z.of_nat 1)),
           (Z.leb_spec (- Z.of_nat 1) i), (Z.ltb_spec i 0); simpl;
    intros [=]; lia.
Qed.

Lemma keeps_bare_or_single meth f idx :
  keeps (fun s => axes s = None \/ shape_of s = Some (Ok [1]))
        (ax_method meth f idx).
Proof.
  intros s [Hn|Hs].
  - left. unfold ax_method. by rewrite Hn.
  - right. by apply (keeps_shape_ax_method _ meth f idx).
Qed.

(** plot on a session without a grid creates a grid of exactly one
    subplot; it returns only for the subplot index (0,) or (-1,). *)
Theorem plot_without_grid E field idx o s s' :
  axes s = None ->
  plot E field idx o s = (s', Ok tt) ->
  shape_of s' = Some (Ok [1]) /\ (idx = [0%Z] \/ idx = [(-1)%Z]).
Proof.
  intros Hn H.
  set (P := fun s0 : Session => axes s0 = None \/ shape_of s0 = Some (Ok [1])).
  assert (P s') as HP.
  { eapply (keeps_ok P); [|by left|exact H].
    apply keeps_plot_ax; try (by intros ? ? ?).
    - intros. apply keeps_bare_or_single.
    - intros s0 Hs0. unfold ensure_figure.
      destruct (fig s0) as [|[g|]]; exact Hs0.
    - intros s0 Hs0. unfold ensure_axes.
      destruct (axes s0) eqn:Ha; simpl; [|by right].
      destruct Hs0 as [Hs0|Hs0]; [by rewrite Ha in Hs0 | by right]. }
  apply plot_ends_on_subplot in H as [a Ha].
  assert (shape_of s' = Some (Ok [1])) as Hs.
  { destruct HP as [HP|HP]; [|done]. unfold subplot in Ha. by rewrite HP in Ha. }
  split; [done|].
  unfold subplot, shape_of in *. destruct (axes s') as [av|]; [|done].
  destruct av as [a0|l|c rows]; simpl in Hs; try done. injection Hs as Hl.
  simpl in Ha. destruct idx as [|i [|? ?]]; try done.
  unfold py_getitem in Ha. rewrite Hl in Ha.
  destruct (py_index 1 i) as [k|] eqn:Hk; [|done].
  destruct (py_index_one i k Hk) as [->| ->]; auto.
Qed.

Lemma plot_without_grid_witness :
  shape_of (plot ex_collab "temp" [(-1)%Z] default_opts ex_bare).1
    = Some (Ok [1]) /\
  ([(-1)%Z] = [0%Z] \/ [(-1)%Z] = [(-1)%Z]).
Proof.
  apply (plot_without_grid ex_collab "temp" [(-1)%Z] default_opts ex_bare);
    [reflexivity | vm_compute; reflexivity].
Defined.

(** ** What day_night_background leaves alone *)

Lemma subplot_ext s t idx : axes s = axes t -> subplot s idx = subplot t idx.
Proof. unfold subplot. by intros ->. Qed.

Lemma ax_method_step meth f idx s s' a :
  ax_method meth f idx s = (s', Ok tt) -> subplot s idx = Some a ->
  subplot s' idx = Some (f a) /\ s' = set_axes (axes s') s.
Proof.
  intros H Ha. destruct (ax_method_subplot _ _ _ _ _ H) as (a0 & Ha0 & Ha').
  rewrite Ha in Ha0. injection Ha0 as <-. split; [done|].
  by apply ax_method_ok in H as (av & av' & _ & _ & ->).
Qed.

Lemma shade_days_ok E days lat lon idx :
  forall s s' a,
    shade_days E days lat lon idx s = (s', Ok tt) ->
    subplot s idx = Some a ->
    exists a', subplot s' idx = Some a' /\
               patch_facecolor a' = patch_facecolor a /\
               same_but_shading a a'.
Proof.
  induction days as [|f rest IH]; intros s s' a H Ha.
  - injection H as <-. exists a. by repeat split.
  - simpl in H. apply bind_ok in H as (s0 & sun & Hsun & H).
    apply lift_ok in Hsun as [-> _].
    apply bind_ok in H as (s1 & [] & H1 & H).
    apply bind_ok in H as (s2 & [] & H2 & H).
    destruct (ax_method_step _ _ _ _ _ _ H1 Ha) as [Ha1 _].
    destruct (ax_method_step _ _ _ _ _ _ H2 Ha1) as [Ha2 _].
    destruct (IH _ _ _ H Ha2) as (a' & Ha' & Hc & Hsame).
    exists a'. split; [done|]. split; [done|].
    unfold same_but_shading in *. simpl in Hsame. done.
Qed.

Lemma day_night_background_ok E idx s s' :
  day_night_background E idx s = (s', Ok tt) ->
  exists a a', subplot s idx = Some a /\ subplot s' idx = Some a' /\
               patch_facecolor a' = Some "0.85" /\ same_but_shading a a'.
Proof.
  intros H.
  destruct (day_night_background_needs_subplot _ _ _ _ H) as [a Ha].
  unfold day_night_background in H.
  apply bind_ok in H as (s0 & d & Hd & H). injection Hd as <- <-.
  apply bind_ok in H as (s0 & span & Hsp & H).
  apply lift_ok in Hsp as [-> _].
  apply bind_ok in H as (s1 & av & Hreq & H).
  assert (s1 = s) as ->
    by (unfold require_axes in Hreq; by destruct (axes s); simplify_eq).
  apply bind_ok in H as (s1 & it & Hit & H).
  apply self_axes_getitem_ok in Hit as [-> _].
  apply bind_ok in H as (s1 & [] & Hm & H).
  apply bind_ok in H as (s2 & loc & Hloc & H).
  apply lift_ok in Hloc as [-> _].
  destruct (ax_method_step _ _ _ _ _ _ Hm Ha) as [Ha1 _].
  destruct (shade_days_ok _ _ _ _ _ _ _ _ H Ha1) as (a' & Ha' & Hc & Hsame).
  exists a, a'. split; [done|]. split; [done|]. split; [by rewrite Hc|].
  unfold same_but_shading in *. simpl in Hsame. done.
Qed.



(** ** What plot leaves on a subplot *)

Lemma ensure_steps_axes s s2 s3 :
  ensure_figure s = (s2, Ok tt) -> ensure_axes s2 = (s3, Ok tt) ->
  axes s3 = axes (ensure_axes s).1 /\ ds s3 = ds s /\ arm s3 = arm s.
Proof.
  unfold ensure_figure, ensure_axes. intros H2 H3.
  assert (axes s2 = axes s /\ ds s2 = ds s /\ arm s2 = arm s) as (Ha & Hd & Hr)
    by (destruct (fig s) as [|[g|]]; by simplify_eq).
  rewrite Ha in H3. destruct (axes s) as [av|] eqn:Hav.
  - injection H3 as <-. by rewrite Ha.
  - injection H3 as <-. done.
Qed.

(** The drawing part of plot (lines 289-329), read backwards from a
    call that returned. *)
Lemma plot_draw_post E field idx o s s1 drawn data xdata ydata units ytitle :
  plot_inputs (arm s) field = Ok (data, xdata, ydata, units, ytitle) ->
  plot_draw E field idx o s = (s1, Ok drawn) ->
  exists a0 a1 t,
    subplot (ensure_axes s).1 idx = Some a0 /\
    subplot s1 idx = Some (ax_set_ylabel ytitle (ax_set_title t a1)) /\
    plot_title E o s field = Some t /\
    drawn_units drawn = units /\ drawn_ydata drawn = ydata /\
    match ydata with
    | None =>
        drawn_mesh drawn = None /\ drawn_x drawn = values xdata /\
        exists ash,
          patch_facecolor ash = Some "0.85" /\ same_but_shading a0 ash /\
          a1 = add_artist
                 (Line2D (values xdata) (values data) "." (line_color o)) ash
    | Some yv =>
        exists xd,
          (if add_nan o
           then add_in_nan E (values xdata) (values data) = Ok xd
           else xd = (values xdata, values data)) /\
          drawn_mesh drawn = Some (mesh_of o xd yv) /\
          drawn_x drawn = xd.1 /\
          a1 = add_artist (mesh_of o xd yv) a0
    end.
Proof.
  intros Hinp H. unfold plot_draw in H.
  apply bind_ok in H as (s0 & d & Hd & H). injection Hd as <- <-.
  apply bind_ok in H as (s0 & inp & Hinp' & H).
  apply lift_ok in Hinp' as [-> Hinp']. rewrite Hinp in Hinp'.
  injection Hinp' as <-.
  apply bind_ok in H as (s2 & [] & Hef & H).
  apply bind_ok in H as (s3 & [] & Hea & H).
  destruct (ensure_steps_axes _ _ _ Hef Hea) as (Hax3 & Hds3 & Harm3).
  apply bind_ok in H as (s4 & it & Hit & H).
  apply self_axes_getitem_ok in Hit as [-> _].
  apply bind_ok in H as (s5 & dr & Hdr & H).
  apply bind_ok in H as (s6 & t & Ht & H).
  apply bind_ok in H as (s7 & [] & Hti & H).
  apply bind_ok in H as (s8 & [] & Hyl & H).
  injection H as <- <-.
  (* the drawing itself *)
  assert (exists a0 a1,
            subplot (ensure_axes s).1 idx = Some a0 /\
            subplot s5 idx = Some a1 /\ ds s5 = ds s /\
            drawn_units dr = units /\ drawn_ydata dr = ydata /\
            match ydata with
            | None =>
                drawn_mesh dr = None /\ drawn_x dr = values xdata /\
                exists ash,
                  patch_facecolor ash = Some "0.85" /\ same_but_shading a0 ash /\
                  a1 = add_artist
                         (Line2D (values xdata) (values data) "." (line_color o)) ash
            | Some yv =>
                exists xd,
                  (if add_nan o
                   then add_in_nan E (values xdata) (values data) = Ok xd
                   else xd = (values xdata, values data)) /\
                  drawn_mesh dr = Some (mesh_of o xd yv) /\
                  drawn_x dr = xd.1 /\
                  a1 = add_artist (mesh_of o xd yv) a0
            end) as (a0 & a1 & Ha0 & Ha1 & Hds5 & Hu & Hy & Hdraw).
  { destruct ydata as [yv|].
    - apply bind_ok in Hdr as (s9 & xd & Hxd & Hdr).
      apply bind_ok in Hdr as (s10 & [] & Hm & Hdr). injection Hdr as <- <-.
      assert (s9 = s3 /\ (if add_nan o
                          then add_in_nan E (values xdata) (values data) = Ok xd
                          else xd = (values xdata, values data))) as [-> Hxd'].
      { destruct (add_nan o).
        - by apply lift_ok in Hxd as [-> ?].
        - by injection Hxd as <- <-. }
      destruct (ax_method_needs_subplot _ _ _ _ _ Hm) as [a0 Ha0].
      destruct (ax_method_step _ _ _ _ _ _ Hm Ha0) as [Ha1 Hs].
      exists a0, (add_artist (mesh_of o xd yv) a0).
      split; [by rewrite <- (subplot_ext s3 _ idx Hax3)|].
      split; [done|]. split; [by rewrite Hs|]. split; [done|]. split; [done|].
      exists xd. by repeat split.
    - apply bind_ok in Hdr as (s9 & [] & Hdnb & Hdr).
      apply bind_ok in Hdr as (s10 & [] & Hm & Hdr). injection Hdr as <- <-.
      destruct (day_night_background_ok _ _ _ _ Hdnb)
        as (a0 & ash & Ha0 & Hash & Hc & Hsame).
      destruct (ax_method_step _ _ _ _ _ _ Hm Hash) as [Ha1 Hs].
      exists a0, (add_artist
                    (Line2D (values xdata) (values data) "." (line_color o)) ash).
      split; [by rewrite <- (subplot_ext s3 _ idx Hax3)|].
      split; [done|]. split.
      { rewrite Hs. simpl.
        assert (keeps (fun s0 => ds s0 = ds s) (day_night_background E idx)) as Hk
          by (apply keeps_day_night_background, ax_stable_frame; by intros ? ? ?).
        by apply (keeps_ok _ _ _ _ _ Hk Hds3 Hdnb). }
      split; [done|]. split; [done|]. split; [done|]. split; [done|].
      exists ash. split; [done|]. by split. }
  (* the title *)
  assert (s6 = s5 /\ plot_title E o s field = Some t) as [-> Htitle].
  { unfold plot_title. destruct (set_title o) as [t0|].
    - by injection Ht as <- <-.
    - apply bind_ok in Ht as (s9 & tv & Htv & Ht).
      apply lift_ok in Htv as [-> Htv].
      apply bind_ok in Ht as (s9 & t0 & Ht0 & Ht).
      apply lift_ok in Ht0 as [-> Ht0].
      apply bind_ok in Ht as (s9 & n & Hn & Ht).
      injection Hn as <- <-. injection Ht as <- <-.
      unfold ds_getattr in Htv.
      destruct (variables (arm s) !! "time") as [tv'|]; [|done].
      injection Htv as ->. simpl.
      apply py_getitem_Ok in Ht0 as (k & Hk & Hl).
      apply py_index_zero in Hk as ->. rewrite Hl. simpl. by rewrite Hds5. }
  destruct (ax_method_step _ _ _ _ _ _ Hti Ha1) as [Ha7 _].
  destruct (ax_method_step _ _ _ _ _ _ Hyl Ha7) as [Ha8 _].
  exists a0, a1, t. by repeat split.
Qed.

Lemma plot_xlimit_step x idx s s' a :
  plot_xlimit x idx s = (s', Ok tt) -> subplot s idx = Some a ->
  exists r,
    subplot s' idx = Some (ax_set_xlim r a) /\ time_rng s' = Attr r /\
    cbs s' = cbs s /\ yrng s' = yrng s /\
    match time_rng s with
    | Attr r0 => r = r0
    | Absent => np_min x = Ok r.1 /\ np_max x = Ok r.2
    end.
Proof.
  unfold plot_xlimit. intros H Ha.
  destruct (plot_xlimit_ok _ _ _ _ H) as (r' & Hr' & _ & Hfrom & _).
  apply bind_ok in H as (s0 & tr & Htr & H). injection Htr as <- <-.
  apply bind_ok in H as (s1 & [] & Hset & H).
  apply bind_ok in H as (s2 & r & Hget & H).
  unfold getattr in Hget. destruct (time_rng s1) as [|r1] eqn:Hr1; [done|].
  injection Hget as <- <-.
  assert (axes s1 = axes s /\ cbs s1 = cbs s /\ yrng s1 = yrng s)
    as (Hax & Hcb & Hy).
  { destruct (time_rng s).
    - apply bind_ok in Hset as (s3 & lo & Hlo & Hset).
      apply lift_ok in Hlo as [-> _].
      apply bind_ok in Hset as (s3 & hi & Hhi & Hset).
      apply lift_ok in Hhi as [-> _]. by injection Hset as <-.
    - by injection Hset as <-. }
  apply set_xrng_ok in H as (av & av' & st0 & st' & Hav & _ & Hcall & _ & ->).
  destruct (axes_call_at _ _ _ _ _ Hcall) as (a1 & Hg & Hg').
  simpl in Hr'. rewrite Hr1 in Hr'. injection Hr' as <-.
  exists r1. simpl. rewrite Hr1, Hcb, Hy. split; [|done].
  unfold subplot in *. simpl. rewrite Hg'.
  rewrite <- Hax, Hav, Hg in Ha. by injection Ha as <-.
Qed.

Lemma plot_yrange_ok ydata idx s s' :
  plot_yrange ydata idx s = (s', Ok tt) -> yrng s = Absent /\ s' = s.
Proof.
  intros H. destruct (yrng s) as [|st] eqn:Hy.
  - split; [done|]. unfold plot_yrange, bind, gets in H. rewrite Hy in H.
    by injection H as <-.
  - by destruct (plot_yrange_raises ydata idx s st s' Hy).
Qed.

Lemma plot_xformat_step E idx s s' a :
  plot_xformat E idx s = (s', Ok tt) -> subplot s idx = Some a ->
  exists days fmt,
    get_date_format E days = Ok fmt /\
    subplot s' idx = Some (ax_set_major_formatter fmt a) /\
    cbs s' = cbs s /\ yrng s' = yrng s /\ time_rng s' = time_rng s.
Proof.
  unfold plot_xformat. intros H Ha.
  apply bind_ok in H as (s0 & st & Hst & H).
  assert (s0 = s) as ->
    by (unfold getattr in Hst; by destruct (xrng s); simplify_eq).
  apply bind_ok in H as (s0 & days & Hd & H). apply lift_ok in Hd as [-> _].
  apply bind_ok in H as (s0 & fmt & Hf & H). apply lift_ok in Hf as [-> Hf].
  destruct (ax_method_step _ _ _ _ _ _ H Ha) as [Ha' Hs].
  exists days, fmt. split; [done|]. split; [done|]. by rewrite Hs.
Qed.

(** A call of plot that returned, read backwards: what the axis of the
    subplot is, in terms of what it was when drawing began. *)
Lemma plot_post E field idx o s s' data xdata ydata units ytitle :
  plot_inputs (arm s) field = Ok (data, xdata, ydata, units, ytitle) ->
  plot E field idx o s = (s', Ok tt) ->
  exists a0 a1 t r days fmt,
    subplot (ensure_axes s).1 idx = Some a0 /\
    subplot s' idx =
      Some (ax_set_major_formatter fmt
              (ax_set_xlim r (ax_set_ylabel ytitle (ax_set_title t a1)))) /\
    plot_title E o s field = Some t /\ time_rng s' = Attr r /\
    get_date_format E days = Ok fmt /\
    yrng s = Absent /\ yrng s' = Absent /\
    (forall r0, time_rng s = Attr r0 -> r = r0) /\
    match ydata with
    | None =>
        cbs s' = cbs s /\
        exists ash,
          patch_facecolor ash = Some "0.85" /\ same_but_shading a0 ash /\
          a1 = add_artist
                 (Line2D (values xdata) (values data) "." (line_color o)) ash
    | Some yv =>
        exists xd,
          (if add_nan o
           then add_in_nan E (values xdata) (values data) = Ok xd
           else xd = (values xdata, values data)) /\
          cbs s' = (cbs s ++ [mkColorbar (mesh_of o xd yv) (Some units) idx])%list /\
          a1 = add_artist (mesh_of o xd yv) a0
    end.
Proof.
  intros Hinp H. unfold plot in H.
  apply bind_ok in H as (s1 & drawn & Hdraw & H).
  apply bind_ok in H as (s2 & [] & Hxl & H).
  apply bind_ok in H as (s3 & [] & Hyr & H).
  apply bind_ok in H as (s4 & [] & Hfmt & H).
  destruct (plot_draw_post _ _ _ _ _ _ _ _ _ _ _ _ Hinp Hdraw)
    as (a0 & a1 & t & Ha0 & Ha1 & Ht & Hu & Hyd & Hdr).
  assert (cbs s1 = cbs s /\ yrng s1 = yrng s /\ time_rng s1 = time_rng s)
    as (Hcb1 & Hy1 & Ht1).
  { set (P := fun s0 : Session =>
                cbs s0 = cbs s /\ yrng s0 = yrng s /\ time_rng s0 = time_rng s).
    assert (ignores set_axes P) as Ha by (by intros ? ? ?).
    assert (ignores set_fig P) as Hf by (by intros ? ? ?).
    destruct (keeps_ensure_frame P Hf Ha) as [Hef Hea].
    apply (keeps_ok P (plot_draw E field idx o) s s1 (Ok drawn));
      [|by unfold P|done].
    apply keeps_plot_draw; [by apply ax_stable_frame|done..]. }
  destruct (plot_xlimit_step _ _ _ _ _ Hxl Ha1)
    as (r & Ha2 & Hr2 & Hcb2 & Hy2 & Hfrom).
  apply plot_yrange_ok in Hyr as [Hy2' ->].
  destruct (plot_xformat_step _ _ _ _ _ Hfmt Ha2)
    as (days & fmt & Hf & Ha4 & Hcb4 & Hy4 & Hr4).
  assert (subplot s' idx = subplot s4 idx /\ time_rng s' = time_rng s4 /\
          yrng s' = yrng s4 /\
          cbs s' = (cbs s4 ++ match drawn_mesh drawn with
                              | Some mesh => [mkColorbar mesh (Some (drawn_units drawn)) idx]
                              | None => []
                              end)%list) as (Hsub & Htr & Hyr & Hcbs).
  { destruct (drawn_mesh drawn) as [mesh|].
    - apply bind_ok in H as (s5 & cb & Hcb & H). injection H as <-.
      apply add_colorbar_ok in Hcb as (a & g & _ & _ & -> & ->). done.
    - injection H as <-. by rewrite app_nil_r. }
  exists a0, a1, t, r, days, fmt.
  split; [done|]. split; [by rewrite Hsub|]. split; [done|].
  split; [by rewrite Htr, Hr4|]. split; [done|].
  split; [by rewrite <- Hy1, <- Hy2|]. split; [by rewrite Hyr, Hy4|].
  split.
  { intros r0 Hr0. rewrite Ht1, Hr0 in Hfrom. done. }
  rewrite Hcb4, Hcb2, Hcb1 in Hcbs.
  destruct ydata as [yv|].
  - destruct Hdr as (xd & Hxd & Hmesh & _ & Ha1').
    exists xd. rewrite Hmesh, Hu in Hcbs. by repeat split.
  - destruct Hdr as (Hmesh & _ & ash & Hc & Hsame & Ha1').
    rewrite Hmesh, app_nil_r in Hcbs. split; [done|].
    exists ash. split; [done|]. by split.
Qed.

Lemma py_getitem_cons_0 {A} (x : A) l : py_getitem (x :: l) 0 = Ok x.
Proof.
  unfold py_getitem. rewrite py_index_nonneg by (simpl; lia). done.
Qed.

Lemma py_getitem_cons_1 {A} (x y : A) l : py_getitem (x :: y :: l) 1 = Ok y.
Proof.
  unfold py_getitem. rewrite py_index_nonneg by (simpl; lia). done.
Qed.

Lemma plot_inputs_one_dim d field data dx xdata u :
  variables d !! field = Some data -> dims data = [dx] ->
  variables d !! dx = Some xdata -> attrs data !! "units" = Some u ->
  plot_inputs d field = Ok (data, xdata, None, "", "(" ++ u ++ ")").
Proof.
  intros Hf Hd Hx Hu. unfold plot_inputs, ds_getitem, attrs_getitem.
  rewrite Hf, Hd, py_getitem_cons_0, Hx, Hu. done.
Qed.

Lemma plot_inputs_two_dim d field data dx dy rest xdata ydata u yu :
  variables d !! field = Some data -> dims data = dx :: dy :: rest ->
  variables d !! dx = Some xdata -> attrs data !! "units" = Some u ->
  variables d !! dy = Some ydata -> attrs ydata !! "units" = Some yu ->
  plot_inputs d field
  = Ok (data, xdata, Some ydata, "(" ++ u ++ ")", "(" ++ yu ++ ")").
Proof.
  intros Hf Hd Hx Hu Hy Hyu. unfold plot_inputs, ds_getitem, attrs_getitem.
  rewrite Hf, Hd, py_getitem_cons_0, Hx, Hu. simpl.
  rewrite py_getitem_cons_1, Hy, Hyu. done.
Qed.

(** When plot returns for a field over one dimension, the subplot has
    the day/night background colour, one more artist than before, the
    series drawn as '.' markers in the line colour over the
    coordinate of that dimension, the y-label "(units)" of the field
    and the title (the override, else datastream, field and first
    date); no colorbar is added. *)
Theorem plot_one_dimensional_field E field idx o s s' data dx xdata u :
  variables (arm s) !! field = Some data -> dims data = [dx] ->
  variables (arm s) !! dx = Some xdata -> attrs data !! "units" = Some u ->
  plot E field idx o s = (s', Ok tt) ->
  exists a0 a' t,
    subplot (ensure_axes s).1 idx = Some a0 /\
    subplot s' idx = Some a' /\
    patch_facecolor a' = Some "0.85" /\
    artists a' =
      (artists a0 ++
       [Line2D (values xdata) (values data) "." (line_color o)])%list /\
    ylabel a' = Some ("(" ++ u ++ ")") /\
    plot_title E o s field = Some t /\ title a' = Some t /\
    cbs s' = cbs s.
Proof.
  intros Hf Hd Hx Hu H.
  pose proof (plot_inputs_one_dim _ _ _ _ _ _ Hf Hd Hx Hu) as Hinp.
  destruct (plot_post _ _ _ _ _ _ _ _ _ _ _ Hinp H)
    as (a0 & a1 & t & r & days & fmt & Ha0 & Ha' & Ht & _ & _ & _ & _ & _ & Hcb & Hdr).
  destruct Hdr as (ash & Hc & Hsame & ->).
  destruct Hsame as (Hart & _).
  eexists a0, _, t. split; [done|]. split; [exact Ha'|]. simpl.
  by rewrite Hart.
Qed.

Lemma plot_one_dimensional_field_witness :
  exists a0 a' t,
    subplot (ensure_axes ex_two).1 [0]%Z = Some a0 /\
    subplot (plot ex_collab "temp" [0]%Z default_opts ex_two).1 [0]%Z = Some a' /\
    patch_facecolor a' = Some "0.85" /\
    artists a' =
      (artists a0 ++
       [Line2D [t_at 1; t_at 12; t_at 23] [11; 15; 9]%Z "."
               (line_color default_opts)])%list /\
    ylabel a' = Some ("(" ++ "C" ++ ")") /\
    plot_title ex_collab default_opts ex_two "temp" = Some t /\
    title a' = Some t /\
    cbs (plot ex_collab "temp" [0]%Z default_opts ex_two).1 = cbs ex_two.
Proof.
  apply (plot_one_dimensional_field ex_collab "temp" [0]%Z default_opts ex_two _
           (mkVariable ["time"] {["units" := "C"]} [11; 15; 9]%Z) "time"
           (mkVariable ["time"] ∅ [t_at 1; t_at 12; t_at 23]) "C");
    [vm_compute; reflexivity | reflexivity | vm_compute; reflexivity
    | vm_compute; reflexivity | vm_compute; reflexivity].
Defined.

(** When plot returns for a field over two or more dimensions, the
    subplot has one more artist than before, a mesh over the time
    samples (gap-filled when add_nan is set) and the coordinate of the
    second dimension; no day/night background is drawn; the y-label is
    the "(units)" of that second coordinate, and exactly one colorbar
    is appended, titled with the "(units)" of the field and attached
    to this subplot. *)
Theorem plot_two_dimensional_field
    E field idx o s s' data dx dy rest xdata ydata u yu :
  variables (arm s) !! field = Some data -> dims data = dx :: dy :: rest ->
  variables (arm s) !! dx = Some xdata -> attrs data !! "units" = Some u ->
  variables (arm s) !! dy = Some ydata -> attrs ydata !! "units" = Some yu ->
  plot E field idx o s = (s', Ok tt) ->
  exists a0 a' t xd,
    (if add_nan o
     then add_in_nan E (values xdata) (values data) = Ok xd
     else xd = (values xdata, values data)) /\
    subplot (ensure_axes s).1 idx = Some a0 /\
    subplot s' idx = Some a' /\
    artists a' = (artists a0 ++ [mesh_of o xd ydata])%list /\
    patch_facecolor a' = patch_facecolor a0 /\
    spans a' = spans a0 /\ vlines a' = vlines a0 /\
    ylabel a' = Some ("(" ++ yu ++ ")") /\
    plot_title E o s field = Some t /\ title a' = Some t /\
    cbs s' =
      (cbs s ++
       [mkColorbar (mesh_of o xd ydata) (Some ("(" ++ u ++ ")")%string) idx])%list.
Proof.
  intros Hf Hd Hx Hu Hy Hyu H.
  pose proof (plot_inputs_two_dim _ _ _ _ _ _ _ _ _ _ Hf Hd Hx Hu Hy Hyu) as Hinp.
  destruct (plot_post _ _ _ _ _ _ _ _ _ _ _ Hinp H)
    as (a0 & a1 & t & r & days & fmt & Ha0 & Ha' & Ht & _ & _ & _ & _ & _ & Hdr).
  destruct Hdr as (xd & Hxd & Hcb & ->).
  eexists a0, _, t, xd. split; [done|]. split; [done|]. split; [exact Ha'|].
  by repeat split.
Qed.

Lemma plot_two_dimensional_field_witness :
  exists a0 a' t xd,
    (if add_nan default_opts
     then add_in_nan ex_collab [t_at 1; t_at 12; t_at 23] [1; 2; 3; 4; 5; 6]%Z
          = Ok xd
     else xd = ([t_at 1; t_at 12; t_at 23], [1; 2; 3; 4; 5; 6]%Z)) /\
    subplot (ensure_axes ex_two).1 [1]%Z = Some a0 /\
    subplot (plot ex_collab "refl" [1]%Z default_opts ex_two).1 [1]%Z = Some a' /\
    artists a' =
      (artists a0 ++
       [mesh_of default_opts xd (mkVariable ["height"] {["units" := "m"]}
                                            [100; 200]%Z)])%list /\
    patch_facecolor a' = patch_facecolor a0 /\
    spans a' = spans a0 /\ vlines a' = vlines a0 /\
    ylabel a' = Some ("(" ++ "m" ++ ")") /\
    plot_title ex_collab default_opts ex_two "refl" = Some t /\
    title a' = Some t /\
    cbs (plot ex_collab "refl" [1]%Z default_opts ex_two).1 =
      (cbs ex_two ++
       [mkColorbar (mesh_of default_opts xd
                      (mkVariable ["height"] {["units" := "m"]} [100; 200]%Z))
                   (Some ("(" ++ "dBZ" ++ ")")%string) [1]%Z])%list.
Proof.
  apply (plot_two_dimensional_field ex_collab "refl" [1]%Z default_opts ex_two _
           (mkVariable ["time"; "height"] {["units" := "dBZ"]}
                       [1; 2; 3; 4; 5; 6]%Z)
           "time" "height" []
           (mkVariable ["time"] ∅ [t_at 1; t_at 12; t_at 23])
           (mkVariable ["height"] {["units" := "m"]} [100; 200]%Z) "dBZ" "m");
    [vm_compute; reflexivity | reflexivity | vm_compute; reflexivity
    | vm_compute; reflexivity | vm_compute; reflexivity
    | vm_compute; reflexivity | vm_compute; reflexivity].
Defined.

(** ** Inputs that plot cannot resolve *)

Lemma plot_unresolved E field idx o s e :
  plot_inputs (arm s) field = Raise e -> plot E field idx o s = (s, Raise e).
Proof.
  intros H. unfold plot. apply bind_raise_eq. unfold plot_draw.
  rewrite (bind_ret_eq _ _ s s (arm s)) by done.
  apply bind_raise_eq. unfold lift. by rewrite H.
Qed.

(** plot of a field the dataset does not have raises KeyError before
    anything is created or changed: the session is exactly as it
    was. *)
Theorem plot_unknown_field E field idx o s :
  variables (arm s) !! field = None ->
  plot E field idx o s = (s, Raise (KeyError field)).
Proof.
  intros H. apply plot_unresolved. unfold plot_inputs, ds_getitem. by rewrite H.
Qed.

Lemma plot_unknown_field_witness :
  plot ex_collab "pressure" [0]%Z default_opts ex_two
  = (ex_two, Raise (KeyError "pressure")).
Proof.
  apply (plot_unknown_field ex_collab "pressure" [0]%Z default_opts ex_two).
  vm_compute. reflexivity.
Defined.

(** plot of a field that carries no units attribute raises KeyError
    for "units" before anything is created or changed. *)
Theorem plot_field_without_units E field idx o s data dx rest xdata :
  variables (arm s) !! field = Some data -> dims data = dx :: rest ->
  variables (arm s) !! dx = Some xdata -> attrs data !! "units" = None ->
  plot E field idx o s = (s, Raise (KeyError "units")).
Proof.
  intros Hf Hd Hx Hu. apply plot_unresolved.
  unfold plot_inputs, ds_getitem, attrs_getitem.
  rewrite Hf, Hd, py_getitem_cons_0, Hx, Hu. done.
Qed.

Lemma plot_field_without_units_witness :
  plot ex_collab "time" [0]%Z default_opts ex_two
  = (ex_two, Raise (KeyError "units")).
Proof.
  apply (plot_field_without_units ex_collab "time" [0]%Z default_opts ex_two
           (mkVariable ["time"] ∅ [t_at 1; t_at 12; t_at 23]) "time" []
           (mkVariable ["time"] ∅ [t_at 1; t_at 12; t_at 23]));
    [vm_compute; reflexivity | reflexivity | vm_compute; reflexivity
    | vm_compute; reflexivity].
Defined.



(** ** Explicit ranges and the time range *)

Lemma plot_resolves_inputs E field idx o s s' :
  plot E field idx o s = (s', Ok tt) ->
  exists inp, plot_inputs (arm s) field = Ok inp.
Proof.
  unfold plot. intros H. apply bind_ok in H as (s1 & drawn & H & _).
  unfold plot_draw in H.
  apply bind_ok in H as (s0 & d & Hd & H). injection Hd as <- <-.
  apply bind_ok in H as (s0 & inp & Hinp & _).
  apply lift_ok in Hinp as [_ Hinp]. eauto.
Qed.

(** An x-range set with set_xrng does not survive a plot on the same
    subplot: when plot returns, the x-limits of the subplot are the
    time range of the session, and that is the one the session had
    before the call when it had one; the range given to set_xrng
    plays no part. *)
Theorem plot_overrides_explicit_xrng E rng idx field o s s1 s2 :
  set_xrng rng idx s = (s1, Ok tt) ->
  plot E field idx o s1 = (s2, Ok tt) ->
  exists r,
    time_rng s2 = Attr r /\ subplot_xlim s2 idx = Some r /\
    time_rng s1 = time_rng s /\
    forall r0, time_rng s = Attr r0 -> r = r0.
Proof.
  intros Hx H.
  destruct (set_xrng_xlim _ _ _ _ Hx) as [_ Ht1].
  destruct (plot_resolves_inputs _ _ _ _ _ _ H) as [[[[[data xdata] ydata] u] yt] Hinp].
  destruct (plot_post _ _ _ _ _ _ _ _ _ _ _ Hinp H)
    as (a0 & a1 & t & r & days & fmt & _ & Ha' & _ & Hr & _ & _ & _ & Hfrom & _).
  exists r. split; [done|]. split.
  - unfold subplot_xlim. by rewrite Ha'.
  - split; [done|]. intros r0 Hr0. apply Hfrom. by rewrite Ht1.
Qed.

Lemma plot_overrides_explicit_xrng_witness :
  exists r,
    time_rng (plot ex_collab "temp" [0]%Z default_opts
                (set_xrng (0, 1)%Z [0]%Z ex_two).1).1 = Attr r /\
    subplot_xlim (plot ex_collab "temp" [0]%Z default_opts
                    (set_xrng (0, 1)%Z [0]%Z ex_two).1).1 [0]%Z = Some r /\
    time_rng (set_xrng (0, 1)%Z [0]%Z ex_two).1 = time_rng ex_two /\
    forall r0, time_rng ex_two = Attr r0 -> r = r0.
Proof.
  apply (plot_overrides_explicit_xrng ex_collab (0, 1)%Z [0]%Z "temp"
           default_opts ex_two); vm_compute; reflexivity.
Defined.



(** ** Attributes that are never written *)

(** No method writes the dataset reference, the field table, the
    label, the file dates or the list of plotted variables: whether it
    returns or raises, each of add_subplots, day_night_background,
    set_xrng, set_yrng, add_colorbar and plot leaves them as they
    were. *)
Theorem read_only_attributes E s :
  let same := fun s0 : Session =>
    arm s0 = arm s /\ fields s0 = fields s /\ ds s0 = ds s /\
    file_dates s0 = file_dates s /\ plot_vars s0 = plot_vars s in
  (forall shape, same (add_subplots shape s).1) /\
  (forall idx, same (day_night_background E idx s).1) /\
  (forall rng idx, same (set_xrng rng idx s).1) /\
  (forall rng idx, same (set_yrng rng idx s).1) /\
  (forall m t idx, same (add_colorbar m t idx s).1) /\
  (forall field idx o, same (plot E field idx o s).1).
Proof.
  intros P.
  assert (ignores set_axes P) as Ha by (by intros ? ? ?).
  assert (P s) as Hs by (by unfold P).
  pose proof (ax_stable_frame P Ha) as Hst.
  repeat split; intros.
  all: first
    [ apply (keeps_add_subplots P); [by intros ? ? ?..|done]
    | apply (keeps_day_night_background E P); done
    | apply (keeps_set_xrng P);
        [by apply keeps_ax_method_frame | by intros ? ? ? | done]
    | apply (keeps_set_yrng P); [done | by intros ? ? ? | done]
    | apply (keeps_add_colorbar P); [by intros ? ? ?.. | done]
    | apply (keeps_plot E P); [by intros ? ? ?.. | done] ].
Qed.

(** ** Construction *)

(** An invalid subplot shape fails at construction: for a shape of
    length other than 1 and 2 the constructor raises the invalid-shape
    ValueError, for every dataset. *)
Theorem init_rejects_invalid_shape d shape :
  length shape <> 1 -> length shape <> 2 ->
  init d (Some shape) = Raise (ValueError invalid_shape_msg).
Proof.
  intros H1 H2. unfold init.
  destruct shape as [|a [|b [|c rest]]]; simpl in *; done.
Qed.

Lemma init_rejects_invalid_shape_witness :
  init ex_ds (Some []) = Raise (ValueError invalid_shape_msg).
Proof. apply (init_rejects_invalid_shape ex_ds []); simpl; lia. Defined.

Lemma init_ds_witness :
  exists s, init ex_ds_unnamed (Some [2%Z]) = Ok s /\
            ds s = py_str (act_datastream ex_ds_unnamed).
Proof.
  eexists. split; [reflexivity|].
  apply (init_ds ex_ds_unnamed (Some [2%Z])). reflexivity.
Defined.

Lemma plot_raises_once_yrng_exists_witness :
  yrng (set_yrng (-5, 40)%Z [0]%Z ex_two).1 = Attr (St1 [(-5, 40); (0, 0)]%Z) /\
  ~ (exists s',
       plot ex_collab "temp" [0]%Z default_opts
         (set_yrng (-5, 40)%Z [0]%Z ex_two).1 = (s', Ok tt)).
Proof.
  split; [reflexivity|]. intros [s' H]. revert H.
  apply (plot_raises_once_yrng_exists ex_collab "temp" [0]%Z default_opts _
           (St1 [(-5, 40); (0, 0)]%Z)).
  reflexivity.
Defined.

Lemma day_night_background_guard_witness :
  day_night_background ex_collab [0]%Z ex_bare
  = (ex_bare, Raise (RuntimeError msg_dnb)).
Proof.
  apply (day_night_background_guard ex_collab [0]%Z ex_bare (day0, day0));
    reflexivity.
Defined.
